(** * build.py: the macro-library build script, embedded and verified

    The script has three stages, run in this order:
    - the Lua stage wraps every [lua/*.lua] file as a SAS macro
      [lua/ml_<name>.sas];
    - the web stage splices three source files between the
      [/* WEBOUT BEGIN */] and [/* WEBOUT END */] lines of two targets;
    - the concatenation stage builds [mc_<folder>.sas] per folder and
      [all.sas] for the whole library.

    Text is modelled as Python presents it in text mode: a [string] of
    characters (code points below 256), line ends already normalised to
    a single newline character.  The file system is a finite map from
    paths to texts; the folders the script names are taken to exist, so
    listing a folder or creating a file in it does not fail.  Buffering
    is not modelled, a write is visible at once; a file object counts as
    open until [close] is called on it or its [with] block ends.

    Two things follow.  What the interpreter does on its own to a file
    object that no name refers to any more is outside the model: the
    handle table and the trace record the calls the script makes.  And
    the files of the model are those of a run in which no two file
    objects write to one path at a time; the statements about the files
    the Lua stage leaves say so where it matters.  [universal_newlines]
    and [platform_newlines] relate a text to the bytes of its file. *)

From Stdlib Require Import Ascii String.
From stdpp Require Import gmap strings list sorting.

(** ** Python built-ins used by the script *)

Module Py.

Definition nl : string := String "010"%char "".
Definition dquote : string := String "034"%char "".

(** [str.isspace] on one character, for code points below 256. *)
Definition isspace (c : ascii) : bool :=
  let n := nat_of_ascii c in
  ((9 <=? n) && (n <=? 13)) || ((28 <=? n) && (n <=? 32))
  || (n =? 133) || (n =? 160).

(** [s.rstrip()]: drop the longest suffix made of whitespace only. *)
Fixpoint rstrip (s : string) : string :=
  match s with
  | EmptyString => EmptyString
  | String c s' =>
      match rstrip s' with
      | EmptyString => if isspace c then EmptyString else String c EmptyString
      | r => String c r
      end
  end.

(** [s.replace(old, new)] for a non-empty [old]: scan from the left,
    at each position where [old] starts emit [new] and skip [old]. *)
Fixpoint replace_from (old new : string) (skip : nat) (s : string) : string :=
  match s with
  | EmptyString => EmptyString
  | String c s' =>
      match skip with
      | S k => replace_from old new k s'
      | O =>
          if String.prefix old s
          then new +:+ replace_from old new (String.length old - 1) s'
          else String c (replace_from old new 0 s')
      end
  end.

Definition replace (old new s : string) : string := replace_from old new 0 s.

(** Iterating over a text file yields its lines, every line keeping its
    newline; only the last line may lack one. *)
Fixpoint lines_of (s : string) : list string :=
  match s with
  | EmptyString => []
  | String c s' =>
      if Ascii.eqb c "010"
      then String c EmptyString :: lines_of s'
      else match lines_of s' with
           | [] => [String c EmptyString]
           | l :: ls => String c l :: ls
           end
  end.

(** Whether a text holds a newline. *)
Fixpoint has_nl (s : string) : bool :=
  match s with
  | EmptyString => false
  | String c s' => Ascii.eqb c "010" || has_nl s'
  end.

(** [f.read()] on a handle whose unread lines are [ls]. *)
Definition join (ls : list string) : string := foldr String.append "" ls.

(** The part of a path after its last slash ([os.path.basename]) and the
    part before it ([Path.parent], empty for a bare file name). *)
Fixpoint has_slash (p : string) : bool :=
  match p with
  | EmptyString => false
  | String c p' => Ascii.eqb c "/" || has_slash p'
  end.

Fixpoint basename (p : string) : string :=
  match p with
  | EmptyString => EmptyString
  | String c p' => if has_slash p then basename p' else p
  end.

Definition dirname (p : string) : string :=
  let n := String.length p - String.length (basename p) in
  String.substring 0 (n - 1) p.

Definition endswith (suf s : string) : bool :=
  let n := String.length s in
  let k := String.length suf in
  (k <=? n) && String.eqb (String.substring (n - k) k s) suf.

(** [fn.match("*.ext")]: the last path component ends with [.ext]. *)
Definition match_ext (ext : string) (p : string) : bool :=
  endswith ext (basename p).

(** [os.path.splitext(b)[0]] for a file name [b] without slashes: cut at
    the last dot, unless only dots precede it. *)
Fixpoint all_dots (s : string) : bool :=
  match s with
  | EmptyString => true
  | String c s' => Ascii.eqb c "." && all_dots s'
  end.

Fixpoint last_dot (s : string) : option nat :=
  match s with
  | EmptyString => None
  | String c s' =>
      match last_dot s' with
      | Some i => Some (S i)
      | None => if Ascii.eqb c "." then Some 0 else None
      end
  end.

Definition splitext_root (b : string) : string :=
  match last_dot b with
  | Some i => if all_dots (String.substring 0 i b) then b
              else String.substring 0 i b
  | None => b
  end.

(** Text mode as [open(path, 'r')] and [open(path, 'w')] set it up
    (no [newline] argument).  On reading, a carriage return, alone or
    followed by a newline, comes out as one newline; on writing, every
    newline goes out as the line separator of the platform. *)
Definition cr : string := String "013"%char "".

Fixpoint universal_newlines (raw : string) : string :=
  match raw with
  | EmptyString => EmptyString
  | String c raw' =>
      if Ascii.eqb c "013" then
        match raw' with
        | String c' raw'' =>
            if Ascii.eqb c' "010" then String "010" (universal_newlines raw'')
            else String "010" (universal_newlines raw')
        | EmptyString => String "010" EmptyString
        end
      else String c (universal_newlines raw')
  end.

Definition platform_newlines (linesep text : string) : string :=
  replace nl linesep text.

End Py.

(** ** Files, handles and the error monad of the script *)

Module IO.

Inductive exn :=
| FileNotFoundError (path : string)
| NameError (name : string)
| ValueError (h : nat).

Inductive outcome (A : Type) :=
| Ok (a : A)
| Raise (e : exn).
Arguments Ok {A} a.
Arguments Raise {A} e.

Inductive mode := ModeR | ModeW.

(** An open file object: where it points, how it was opened, the lines
    not yet read, and whether [close] has been called on it. *)
Record handle := Handle {
  h_path : string;
  h_mode : mode;
  h_rest : list string;
  h_open : bool
}.

Inductive event :=
| EvOpen (h : nat) (path : string)
| EvClose (h : nat).

(** The state the script runs in.  File objects are numbered in the
    order in which [open] creates them. *)
Record world := World {
  files : gmap string string;
  handles : gmap nat handle;
  next_handle : nat;
  trace : list event
}.

Definition M (A : Type) : Type := world → outcome A * world.

Definition ret {A} (a : A) : M A := λ w, (Ok a, w).

Definition bind {A B} (m : M A) (k : A → M B) : M B := λ w,
  match m w with
  | (Ok a, w1) => k a w1
  | (Raise e, w1) => (Raise e, w1)
  end.

Definition raise {A} (e : exn) : M A := λ w, (Raise e, w).

#[global] Instance M_ret : MRet M := @ret.
#[global] Instance M_bind : MBind M := λ A B k m, bind m k.

(** [for x in xs: s = body(s, x)] *)
Fixpoint foldM {S A} (body : S → A → M S) (s : S) (xs : list A) : M S :=
  match xs with
  | [] => ret s
  | x :: xs' => bind (body s x) (λ s', foldM body s' xs')
  end.

Definition for_each {A} (xs : list A) (body : A → M unit) : M unit :=
  foldM (λ _ x, body x) tt xs.

Definition set_files (fs : gmap string string) (w : world) : world :=
  World fs (handles w) (next_handle w) (trace w).

Definition set_handle (h : nat) (hd : handle) (w : world) : world :=
  World (files w) (<[h := hd]> (handles w)) (next_handle w) (trace w).

(** [open(path, 'r')] and [open(path, 'w')] *)
Definition open_ (path : string) (md : mode) : M nat := λ w,
  let h := next_handle w in
  match md with
  | ModeR =>
      match files w !! path with
      | Some txt =>
          (Ok h, World (files w)
                       (<[h := Handle path ModeR (Py.lines_of txt) true]> (handles w))
                       (S h) (trace w ++ [EvOpen h path]))
      | None => (Raise (FileNotFoundError path), w)
      end
  | ModeW =>
      (Ok h, World (<[path := ""]> (files w))
                   (<[h := Handle path ModeW [] true]> (handles w))
                   (S h) (trace w ++ [EvOpen h path]))
  end.

(** [h.close()]; closing twice is allowed. *)
Definition close (h : nat) : M unit := λ w,
  match handles w !! h with
  | Some hd =>
      (Ok (), World (files w)
                    (<[h := Handle (h_path hd) (h_mode hd) (h_rest hd) false]> (handles w))
                    (next_handle w) (trace w ++ [EvClose h]))
  | None => (Raise (ValueError h), w)
  end.

(** [h.write(s)] appends to the file the handle points to. *)
Definition write (h : nat) (s : string) : M unit := λ w,
  match handles w !! h with
  | Some (Handle p ModeW _ true) =>
      (Ok (), set_files (<[p := default "" (files w !! p) +:+ s]> (files w)) w)
  | _ => (Raise (ValueError h), w)
  end.

(** The lines a [for line in h] loop will see: all that is unread; the
    handle is then at end of file. *)
Definition read_lines (h : nat) : M (list string) := λ w,
  match handles w !! h with
  | Some (Handle p ModeR ls true) => (Ok ls, set_handle h (Handle p ModeR [] true) w)
  | _ => (Raise (ValueError h), w)
  end.

Definition for_lines {S} (h : nat) (body : S → string → M S) (s : S) : M S :=
  bind (read_lines h) (foldM body s).

(** [h.read()] *)
Definition read (h : nat) : M string :=
  bind (read_lines h) (λ ls, ret (Py.join ls)).

(** [with open(path, md) as h: body]: the handle is closed however the
    body ends. *)
Definition with_open {A} (path : string) (md : mode) (body : nat → M A) : M A := λ w,
  match open_ path md w with
  | (Ok h, w1) => let '(r, w2) := body h w1 in (r, (close h w2).2)
  | (Raise e, w1) => (Raise e, w1)
  end.

(** [os.remove] and [os.rename] *)
Definition remove (path : string) : M unit := λ w,
  match files w !! path with
  | Some _ => (Ok (), set_files (delete path (files w)) w)
  | None => (Raise (FileNotFoundError path), w)
  end.

Definition rename (src dst : string) : M unit := λ w,
  match files w !! src with
  | Some txt => (Ok (), set_files (<[dst := txt]> (delete src (files w))) w)
  | None => (Raise (FileNotFoundError src), w)
  end.

(** The handles on which [open] was recorded and no [close] after it. *)
Fixpoint open_after (tr : list event) (acc : list nat) : list nat :=
  match tr with
  | [] => acc
  | EvOpen h _ :: tr' => open_after tr' (acc ++ [h])
  | EvClose h :: tr' => open_after tr' (filter (λ x, x ≠ h) acc)
  end.

Definition still_open (w : world) : list nat := open_after (trace w) [].

(** The handles already open at each [open], in the order of the opens. *)
Fixpoint open_at_opens (tr : list event) (acc : list nat) : list (nat * list nat) :=
  match tr with
  | [] => []
  | EvOpen h _ :: tr' => (h, acc) :: open_at_opens tr' (acc ++ [h])
  | EvClose h :: tr' => open_at_opens tr' (filter (λ x, x ≠ h) acc)
  end.

End IO.

(** ** The script *)

Module Build.
Import Py IO.

Section script.

(** [Path(d).iterdir()]: the files of folder [d], in whatever order the
    operating system lists them. *)
Variable os_listing : gmap string string → string → list string.

Definition iterdir (d : string) : M (list string) := λ w,
  (Ok (os_listing (files w) d), w).

(** *** Prepare Lua macros *)

(** [s.replace("'","''")] *)
Definition escape (s : string) : string := replace "'" "''" s.

(** The text one source line becomes, here and in the web stage. *)
Definition put_stmt (line : string) : string :=
  "  put '" +:+ escape (rstrip line) +:+ " ';" +:+ nl.

Definition ml_name (file : string) : string :=
  "ml_" +:+ splitext_root (basename file).

(** One turn of the loop over [files]; the result is the new binding
    of [ml]. *)
Definition embed_file (file : string) : M nat :=
  let basename := basename file in
  let name := "ml_" +:+ splitext_root basename in
  ml ← open_ ("lua/" +:+ name +:+ ".sas") ModeW;
  write ml ("/**" +:+ nl);;
  write ml ("  @file " +:+ name +:+ ".sas" +:+ nl);;
  write ml ("  @brief Compiles the " +:+ basename +:+ " lua file" +:+ nl);;
  write ml ("  @details Writes " +:+ basename +:+ " to the work directory" +:+ nl);;
  write ml ("  and then includes it." +:+ nl);;
  write ml ("  Usage:" +:+ nl +:+ nl);;
  write ml ("      %" +:+ name +:+ "()" +:+ nl +:+ nl);;
  write ml ("**/" +:+ nl +:+ nl);;
  write ml ("%macro " +:+ name +:+ "();" +:+ nl);;
  write ml ("data _null_;" +:+ nl);;
  write ml ("  file " +:+ dquote +:+ "%sysfunc(pathname(work))/" +:+ name
            +:+ ".lua" +:+ dquote +:+ ";" +:+ nl);;
  with_open file ModeR (λ infile,
    for_lines infile (λ _ line, write ml (put_stmt line)) ());;
  write ml ("run;" +:+ nl);;
  write ml ("%mend;" +:+ nl +:+ nl);;
  write ml ("%inc " +:+ dquote +:+ "%sysfunc(pathname(work))/" +:+ name
            +:+ ".lua" +:+ dquote +:+ ";" +:+ nl);;
  mret ml.

(** The stage: [ml] is unbound until the loop body has run once, and
    [ml.close()] comes after the loop. *)
Definition lua_stage : M unit :=
  entries ← iterdir "lua";
  let files := filter (λ f, match_ext ".lua" f = true) entries in
  ml ← foldM (λ _ file, h ← embed_file file; mret (Some h)) None files;
  match ml with
  | Some h => close h
  | None => raise (NameError "ml")
  end.

(** *** Prepare web files *)

Definition webout_begin : string := "/* WEBOUT BEGIN */" +:+ nl.
Definition webout_end : string := "/* WEBOUT END */" +:+ nl.
Definition comment_close : string := "**/" +:+ nl.

(** The loop over the lines [w] of one source file; the state is
    [stripcomment]. *)
Definition webout_line (outfile : nat) (stripcomment : nat) (w : string) : M nat :=
  if String.eqb w comment_close then mret 0
  else if stripcomment =? 0 then write outfile (put_stmt w);; mret stripcomment
  else mret stripcomment.

(** The loop over the lines of the target; the state is [delrow]. *)
Definition splice_line (outfile : nat) (weboutfiles : list nat)
    (delrow : nat) (line : string) : M nat :=
  if String.eqb line webout_begin then
    write outfile webout_begin;;
    for_each weboutfiles (λ weboutfile,
      for_lines weboutfile (webout_line outfile) 1;; mret ());;
    mret 1
  else if (delrow =? 1) && String.eqb line webout_end then
    write outfile webout_end;;
    mret 0
  else if delrow =? 0 then
    write outfile (rstrip line +:+ nl);;
    mret delrow
  else mret delrow.

(** One turn of the loop over the two targets. *)
Definition splice_file (file : string) : M unit :=
  webout0 ← open_ "base/mp_jsonout.sas" ModeR;
  webout1 ← (if String.eqb file "viya/mv_createwebservice.sas"
             then open_ "viya/mv_webout.sas" ModeR
             else open_ "meta/mm_webout.sas" ModeR);
  webout2 ← open_ "base/mf_getuser.sas" ModeR;
  outfile ← open_ (file +:+ "TEMP") ModeW;
  infile ← open_ file ModeR;
  for_lines infile (splice_line outfile [webout0; webout1; webout2]) 0;;
  close webout0;;
  close webout1;;
  close outfile;;
  close infile;;
  remove file;;
  rename (file +:+ "TEMP") file.

Definition web_targets : list string :=
  ["viya/mv_createwebservice.sas"; "meta/mm_createwebservice.sas"].

Definition web_stage : M unit := for_each web_targets splice_file.

(** *** Concatenate all macros into a single file *)

Definition header : string :=
  String.concat nl
    [ "";
      "/**";
      "  @file";
      "  @brief Auto-generated file";
      "  @details";
      "    This file contains all the macros in a single file - which means it can be";
      "    'included' in SAS with just 2 lines of code:";
      "";
      "      filename mc url";
      "        " +:+ dquote +:+ "https://raw.githubusercontent.com/sasjs/core/main/all.sas"
        +:+ dquote +:+ ";";
      "      %inc mc;";
      "";
      "    The `build.py` file in the https://github.com/sasjs/core repo";
      "    is used to create this file.";
      "";
      "  @author Allan Bowe";
      "**/";
      "options noquotelenmax;";
      "" ].

Definition folders : list string := ["base"; "meta"; "metax"; "viya"; "lua"].

(** [filenames.sort()]: paths of one folder compare as their parts do,
    that is by file name, character by character. *)
Definition sort_paths (l : list string) : list string := merge_sort String.le l.

(** One turn of the loop over [folders]; [f] is the handle of
    [all.sas]. *)
Definition concat_folder (f : nat) (folder : string) : M unit :=
  entries ← iterdir folder;
  let filenames := sort_paths (filter (λ fn, match_ext ".sas" fn = true) entries) in
  with_open ("mc_" +:+ folder +:+ ".sas") ModeW (λ outfile,
    for_each filenames (λ fname,
      with_open fname ModeR (λ infile,
        txt ← read infile; write outfile txt)));;
  with_open ("mc_" +:+ folder +:+ ".sas") ModeR (λ c,
    txt ← read c; write f txt).

Definition concat_stage : M unit :=
  f ← open_ "all.sas" ModeW;
  write f header;;
  for_each folders (concat_folder f);;
  close f.

(** *** The whole run *)

Definition build : M unit :=
  lua_stage;; web_stage;; concat_stage.

End script.

(** A world holding the given files and no file object yet. *)
Definition initial (fs : gmap string string) : world := World fs ∅ 0 [].

(** The texts the script reads from a disk of byte files. *)
Definition read_as_text (disk : gmap string string) : gmap string string :=
  universal_newlines <$> disk.

(** What is assumed of a directory listing: it names, once each and in
    any order, the files that exist in the folder (sub-folders are left
    out: none of them is named [*.lua] or [*.sas]). *)
Definition valid_listing (os : gmap string string → string → list string) : Prop :=
  ∀ fs d, NoDup (os fs d)
          ∧ ∀ x, x ∈ os fs d ↔ is_Some (fs !! x) ∧ dirname x = d.

(** A listing that follows the order of the map's own enumeration. *)
Definition plain_listing (fs : gmap string string) (d : string) : list string :=
  filter (λ p, dirname p = d) (map_to_list fs).*1.

End Build.

(** ** What the loops write, as functions on lines

    The same loops once more, with the file objects replaced by the
    lines they hold and every [write] by the text it appends.  The
    lemmas [webout_fold_run], [splice_loop_run], [splice_file_run],
    [embed_file_run] and [concat_stage_run] below show that the script
    writes exactly these texts. *)

Module Loops.
Import Py IO Build.

(** [for w in weboutfile]: the lines [w] that reach the [write]. *)
Fixpoint webout_lines (stripcomment : nat) (ws : list string) : list string :=
  match ws with
  | [] => []
  | w :: ws' =>
      if String.eqb w comment_close then webout_lines 0 ws'
      else if stripcomment =? 0 then w :: webout_lines stripcomment ws'
      else webout_lines stripcomment ws'
  end.

(** [for weboutfile in weboutfiles], on the unread lines of each. *)
Definition webout_block (srcs : list (list string)) : list string :=
  flat_map (λ ws, map put_stmt (webout_lines 1 ws)) srcs.

(** After that loop every source handle is at end of file. *)
Definition drained (srcs : list (list string)) : list (list string) :=
  map (λ _, []) srcs.

Definition is_drained (srcs : list (list string)) : Prop :=
  Forall (λ r, r = []) srcs.

(** [for line in infile]: the texts written to [outfile]. *)
Fixpoint splice_lines (delrow : nat) (srcs : list (list string))
    (lines : list string) : list string :=
  match lines with
  | [] => []
  | line :: rest =>
      if String.eqb line webout_begin then
        webout_begin :: webout_block srcs ++ splice_lines 1 (drained srcs) rest
      else if (delrow =? 1) && String.eqb line webout_end then
        webout_end :: splice_lines 0 srcs rest
      else if delrow =? 0 then
        (rstrip line +:+ nl) :: splice_lines delrow srcs rest
      else splice_lines delrow srcs rest
  end.

(** The value of [delrow] and the unread source lines after the loop. *)
Fixpoint splice_state (delrow : nat) (srcs : list (list string))
    (lines : list string) : nat * list (list string) :=
  match lines with
  | [] => (delrow, srcs)
  | line :: rest =>
      if String.eqb line webout_begin then splice_state 1 (drained srcs) rest
      else if (delrow =? 1) && String.eqb line webout_end then splice_state 0 srcs rest
      else splice_state delrow srcs rest
  end.

(** The second source of a target. *)
Definition webout1_path (file : string) : string :=
  if String.eqb file "viya/mv_createwebservice.sas"
  then "viya/mv_webout.sas" else "meta/mm_webout.sas".

(** What one turn of the web stage records when [n] is the number of
    its first handle: five opens, four closes. *)
Definition turn_events (n : nat) (file : string) : list event :=
  [ EvOpen n "base/mp_jsonout.sas";
    EvOpen (S n) (webout1_path file);
    EvOpen (S (S n)) "base/mf_getuser.sas";
    EvOpen (S (S (S n))) (file +:+ "TEMP");
    EvOpen (S (S (S (S n)))) file;
    EvClose n;
    EvClose (S n);
    EvClose (S (S (S n)));
    EvClose (S (S (S (S n)))) ].

(** The target after the web stage, from the texts of the target and
    of the three sources. *)
Definition spliced (target : string) (sources : list string) : string :=
  join (splice_lines 0 (map lines_of sources) (lines_of target)).

(** The texts [embed_file] writes before and after the [put] lines. *)
Definition ml_prologue (name basename : string) : string :=
  join [ "/**" +:+ nl;
         "  @file " +:+ name +:+ ".sas" +:+ nl;
         "  @brief Compiles the " +:+ basename +:+ " lua file" +:+ nl;
         "  @details Writes " +:+ basename +:+ " to the work directory" +:+ nl;
         "  and then includes it." +:+ nl;
         "  Usage:" +:+ nl +:+ nl;
         "      %" +:+ name +:+ "()" +:+ nl +:+ nl;
         "**/" +:+ nl +:+ nl;
         "%macro " +:+ name +:+ "();" +:+ nl;
         "data _null_;" +:+ nl;
         "  file " +:+ dquote +:+ "%sysfunc(pathname(work))/" +:+ name
           +:+ ".lua" +:+ dquote +:+ ";" +:+ nl ].

Definition ml_epilogue (name : string) : string :=
  join [ "run;" +:+ nl;
         "%mend;" +:+ nl +:+ nl;
         "%inc " +:+ dquote +:+ "%sysfunc(pathname(work))/" +:+ name
           +:+ ".lua" +:+ dquote +:+ ";" +:+ nl ].

(** The body of the macro: one text per line of the Lua file. *)
Definition ml_body (lines : list string) : list string := map put_stmt lines.

(** The text of [mc_<folder>.sas]: the members of the folder, sorted. *)
Definition members (listing : list string) : list string :=
  sort_paths (filter (λ fn, match_ext ".sas" fn = true) listing).

Definition category_text (fs : gmap string string) (listing : list string) : string :=
  join (map (λ p, default "" (fs !! p)) (members listing)).

(** The text of [all.sas], from the file system the stage starts in. *)
Definition library_text (fs : gmap string string) : string :=
  header +:+ join (map (λ d, category_text fs (plain_listing fs d)) folders).

(** Two file systems that agree on the files of the library's folders. *)
Definition same_folders (fs fs' : gmap string string) : Prop :=
  ∀ p, dirname p ∈ folders → fs !! p = fs' !! p.

(** A world in the middle of one turn of the web stage, over a world
    [w]: [o] is the handle of the temporary file [tmp], which holds [c]
    so far; [h0], [h1], [h2] are the source handles, with unread lines
    [r0], [r1], [r2]. *)
Definition web_world (w : world) (tmp p0 p1 p2 : string) (o h0 h1 h2 : nat)
    (c : string) (r0 r1 r2 : list string) : world :=
  World (<[tmp := c]> (files w))
        (<[o := Handle tmp ModeW [] true]>
           (<[h2 := Handle p2 ModeR r2 true]>
              (<[h1 := Handle p1 ModeR r1 true]>
                 (<[h0 := Handle p0 ModeR r0 true]> (handles w)))))
        (next_handle w) (trace w).

(** How the copy-through branch writes a line. *)
Definition copy_line (line : string) : string := rstrip line +:+ nl.

(** No line merely looks like the begin marker: a line that the
    copy-through branch would turn into the begin line is the begin
    line. *)
Definition no_fake_begin (lines : list string) : Prop :=
  Forall (λ l, copy_line l = webout_begin → l = webout_begin) lines.

(** A line as file iteration yields it: no newline but at its end. *)
Definition line_ok (l : string) : Prop := has_nl (rstrip l) = false.

(** A whole line: some text without newline, then one newline. *)
Definition whole_line (l : string) : Prop :=
  ∃ s, has_nl s = false ∧ l = s +:+ nl.

(** The macro file of a Lua file and the text written to it. *)
Definition ml_path (file : string) : string :=
  "lua/" +:+ ml_name file +:+ ".sas".

Definition ml_text (file txt : string) : string :=
  ml_prologue (ml_name file) (basename file)
  +:+ join (ml_body (lines_of txt))
  +:+ ml_epilogue (ml_name file).

(** The file system after the loop of the Lua stage over [fl], started
    in [fs]: one macro file per Lua file, in the order of the loop.  It
    is used for lists [fl] whose macro files are all different. *)
Definition lua_files_from (fs acc : gmap string string) (fl : list string)
    : gmap string string :=
  foldl (λ acc f, <[ml_path f := ml_text f (default "" (fs !! f))]> acc) acc fl.

Definition lua_files_after (fs : gmap string string) (fl : list string)
    : gmap string string :=
  lua_files_from fs fs fl.

(** The Lua files of a loop have macro files that are all different. *)
Definition distinct_macros (fl : list string) : Prop := NoDup (ml_path <$> fl).

(** What the loop of the Lua stage records over [fl] when [n] is the
    number of its first handle: per Lua file, the macro file is opened,
    then the Lua file is opened and, at the end of its [with] block,
    closed. *)
Fixpoint lua_events (n : nat) (fl : list string) : list event :=
  match fl with
  | [] => []
  | f :: fl' =>
      EvOpen n (ml_path f) :: EvOpen (S n) f :: EvClose (S n)
      :: lua_events (S (S n)) fl'
  end.

(** The handle of the macro file of the [i]-th Lua file of that loop. *)
Definition ml_handle (n i : nat) : nat := n + 2 * i.

(** The binding of [ml] names a file object. *)
Definition ml_bound (ml : option nat) (w : world) : Prop :=
  match ml with
  | Some h => is_Some (handles w !! h)
  | None => True
  end.

(** A step from [w] to [w'] that closed every handle it opened: it
    created handles only, kept those there were, and the events it added
    leave any set of older handles open exactly as it was. *)
Definition balanced (w w' : world) : Prop :=
  next_handle w ≤ next_handle w'
  ∧ (∀ h, is_Some (handles w !! h) → is_Some (handles w' !! h))
  ∧ ∃ evs, trace w' = trace w ++ evs
           ∧ ∀ acc, Forall (λ x, x < next_handle w) acc → open_after evs acc = acc.

(** The file system after the web stage, started in [fs] with targets
    [tv], [tm] and sources [s0], [sv], [sm], [s2]. *)
Definition web_files_after (fs : gmap string string)
    (tv tm s0 sv sm s2 : string) : gmap string string :=
  <["meta/mm_createwebservice.sas" := spliced tm [s0; sm; s2]]>
    (delete ("meta/mm_createwebservice.sas" +:+ "TEMP")
       (<["viya/mv_createwebservice.sas" := spliced tv [s0; sv; s2]]>
          (delete ("viya/mv_createwebservice.sas" +:+ "TEMP") fs))).

End Loops.

(** ** The claims of the specification, in its own words *)

Module Claimed.
Import Py IO Build.

(** [s.strip()], for "the entire trimmed content of a line". *)
Fixpoint lstrip (s : string) : string :=
  match s with
  | EmptyString => EmptyString
  | String c s' => if isspace c then lstrip s' else s
  end.

Definition strip (s : string) : string := lstrip (rstrip s).

(** CommentStripper as the specification words it: everything after the
    first line whose trimmed content is the close token. *)
Fixpoint strip_comment (ls : list string) : list string :=
  match ls with
  | [] => []
  | l :: ls' => if String.eqb (strip l) "**/" then ls' else strip_comment ls'
  end.

(** A line without its line terminator. *)
Definition chomp (line : string) : string :=
  if endswith nl line then String.substring 0 (String.length line - 1) line else line.

(** A write statement that reproduces a line verbatim, quotes doubled. *)
Definition verbatim_stmt (line : string) : string :=
  "  put '" +:+ escape (chomp line) +:+ " ';" +:+ nl.

(** A text with every single quote written twice and nothing else
    changed. *)
Fixpoint double_quotes (s : string) : string :=
  match s with
  | EmptyString => EmptyString
  | String c s' =>
      if Ascii.eqb c "'" then String c (String c (double_quotes s'))
      else String c (double_quotes s')
  end.

Fixpoint count_char (a : ascii) (s : string) : nat :=
  match s with
  | EmptyString => 0
  | String c s' => (if Ascii.eqb c a then 1 else 0) + count_char a s'
  end.

Fixpoint without_char (a : ascii) (s : string) : string :=
  match s with
  | EmptyString => EmptyString
  | String c s' => if Ascii.eqb c a then without_char a s' else String c (without_char a s')
  end.

Fixpoint last_char (s : string) : option ascii :=
  match s with
  | EmptyString => None
  | String c s' => match last_char s' with Some a => Some a | None => Some c end
  end.

(** A category artifact as the specification words it, raw and byte
    for byte: the bytes of the members of the folder, in sorted order,
    one after the other. *)
Definition raw_concatenation (disk : gmap string string) (folder : string) : string :=
  join (map (λ p, default "" (disk !! p))
            (Loops.members (plain_listing disk folder))).

End Claimed.

(** ** Concrete file systems used in examples *)

Module Scenario.
Import Py IO Build.

(** Scenario A: the two lines [print("hi")] and [return 1]. *)
Definition scenario_a_text : string :=
  "print(" +:+ dquote +:+ "hi" +:+ dquote +:+ ")" +:+ nl +:+ "return 1".

Definition scenario_a_world : world :=
  initial {[ "lua/example.lua" := scenario_a_text ]}.

(** A tree with the first web target and its three sources. *)
Definition web_fs (target s0 s1 s2 : string) : gmap string string :=
  {[ "viya/mv_createwebservice.sas" := target;
     "base/mp_jsonout.sas" := s0;
     "viya/mv_webout.sas" := s1;
     "base/mf_getuser.sas" := s2 ]}.

(** Scenario D, with the folders of the script: [base] holds [a.sas]
    and [b.sas], [meta] holds [c.sas]. *)
Definition scenario_d_fs : gmap string string :=
  {[ "base/b.sas" := "B"; "base/a.sas" := "A"; "meta/c.sas" := "C";
     "base/notes.txt" := "N" ]}.

(** A small library tree: two Lua files, the two web targets and their
    sources. *)
Definition library_fs : gmap string string :=
  {[ "lua/a.lua" := "return 1" +:+ nl;
     "lua/b.lua" := "return 2" +:+ nl;
     "base/mp_jsonout.sas" := comment_close +:+ "%macro mp_jsonout;" +:+ nl;
     "base/mf_getuser.sas" := comment_close +:+ "%macro mf_getuser;" +:+ nl;
     "viya/mv_webout.sas" := comment_close +:+ "%macro mv_webout;" +:+ nl;
     "meta/mm_webout.sas" := comment_close +:+ "%macro mm_webout;" +:+ nl;
     "viya/mv_createwebservice.sas" := webout_begin +:+ webout_end;
     "meta/mm_createwebservice.sas" := webout_begin +:+ webout_end ]}.

(** A disk whose [base] folder holds one file with a line ending in
    carriage return and newline, and one with a line ending in a carriage
    return alone. *)
Definition cr_disk : gmap string string :=
  {[ "base/a.sas" := "A" +:+ cr +:+ nl; "base/b.sas" := "B" +:+ cr ]}.

End Scenario.

(** ** Facts about the built-ins *)

Import Py IO Build Loops.

Lemma str_app_cons c s t : String c s +:+ t = String c (s +:+ t).
Proof. reflexivity. Qed.

Lemma str_app_nil_l s : "" +:+ s = s.
Proof. reflexivity. Qed.

Lemma str_app_nil_r s : s +:+ "" = s.
Proof. induction s as [|c s IH]; [done|]. by rewrite str_app_cons, IH. Qed.

Lemma str_app_assoc s t u : (s +:+ t) +:+ u = s +:+ (t +:+ u).
Proof. induction s as [|c s IH]; [done|]. by rewrite !str_app_cons, IH. Qed.

Lemma join_cons l ls : join (l :: ls) = l +:+ join ls.
Proof. reflexivity. Qed.

Lemma join_app ls1 ls2 : join (ls1 ++ ls2) = join ls1 +:+ join ls2.
Proof.
  induction ls1 as [|l ls1 IH]; [done|].
  by rewrite <- app_comm_cons, !join_cons, IH, str_app_assoc.
Qed.

Lemma join_lines_of s : join (lines_of s) = s.
Proof.
  induction s as [|c s IH]; [done|]. simpl.
  destruct (Ascii.eqb c "010").
  - by rewrite join_cons, IH.
  - destruct (lines_of s) as [|l ls].
    + by rewrite <- IH.
    + rewrite join_cons in *. by rewrite str_app_cons, IH.
Qed.


Lemma prefix_empty s : String.prefix "" s = true.
Proof. by destruct s. Qed.

Lemma prefix_cons a s1 b s2 :
  String.prefix (String a s1) (String b s2) =
  if ascii_dec a b then String.prefix s1 s2 else false.
Proof. reflexivity. Qed.

Lemma replace_from_cons old new c s :
  replace_from old new 0 (String c s) =
  if String.prefix old (String c s)
  then new +:+ replace_from old new (String.length old - 1) s
  else String c (replace_from old new 0 s).
Proof. reflexivity. Qed.

Lemma replace_quote_cons c s :
  replace "'" "''" (String c s) =
  if Ascii.eqb c "'" then "''" +:+ replace "'" "''" s
  else String c (replace "'" "''" s).
Proof.
  unfold replace. rewrite replace_from_cons, prefix_cons, prefix_empty.
  destruct (ascii_dec "'" c) as [<-|Hne]; [done|].
  destruct (Ascii.eqb_spec c "'"); [congruence|done].
Qed.

Lemma rstrip_blank_suffix s t : rstrip t = "" → rstrip (s +:+ t) = rstrip s.
Proof.
  intros Ht. induction s as [|c s IH]; [done|].
  rewrite str_app_cons. simpl. by rewrite IH.
Qed.

Lemma rstrip_nl : rstrip nl = "".
Proof. reflexivity. Qed.

Lemma rstrip_line s : rstrip s = s → rstrip (s +:+ nl) = s.
Proof. intros H. by rewrite rstrip_blank_suffix, H. Qed.



Lemma bind_run {A B} (m : M A) (k : A → M B) w a w1 :
  m w = (Ok a, w1) → (m ≫= k) w = k a w1.
Proof. intros H. unfold mbind, M_bind, bind. by rewrite H. Qed.

Lemma bind_raise {A B} (m : M A) (k : A → M B) w e w1 :
  m w = (Raise e, w1) → (m ≫= k) w = (Raise e, w1).
Proof. intros H. unfold mbind, M_bind, bind. by rewrite H. Qed.

Lemma world_eta w : World (files w) (handles w) (next_handle w) (trace w) = w.
Proof. by destruct w. Qed.


(** ** The web stage writes what [splice_lines] says *)

Lemma foldM_cons {S A} (body : S → A → M S) s x xs w :
  foldM body s (x :: xs) w =
  match body s x w with
  | (Ok s', w1) => foldM body s' xs w1
  | (Raise e, w1) => (Raise e, w1)
  end.
Proof. reflexivity. Qed.

Section web_run.

Variable w : world.
Variables (tmp p0 p1 p2 : string) (o h0 h1 h2 : nat).
Hypothesis distinct : NoDup [o; h0; h1; h2].

#[local] Abbreviation ww := (web_world w tmp p0 p1 p2 o h0 h1 h2).

Lemma distinct_ne :
  o ≠ h0 ∧ o ≠ h1 ∧ o ≠ h2 ∧ h0 ≠ h1 ∧ h0 ≠ h2 ∧ h1 ≠ h2.
Proof.
  repeat match goal with
         | H : NoDup (_ :: _) |- _ => apply NoDup_cons in H as [? H]
         end.
  set_solver.
Qed.

Lemma write_web c r0 r1 r2 s :
  write o s (ww c r0 r1 r2) = (Ok (), ww (c +:+ s) r0 r1 r2).
Proof.
  unfold write, web_world, set_files; simpl.
  rewrite !lookup_insert_eq; simpl.
  by rewrite insert_insert_eq.
Qed.

Lemma read_web0 c r0 r1 r2 :
  read_lines h0 (ww c r0 r1 r2) = (Ok r0, ww c [] r1 r2).
Proof.
  destruct distinct_ne as (?&?&?&?&?&?).
  unfold read_lines, web_world, set_handle; simpl.
  rewrite !lookup_insert_ne, lookup_insert_eq by done.
  do 2 f_equal. apply map_eq; intros i.
  rewrite !lookup_insert. repeat case_decide; congruence.
Qed.

Lemma read_web1 c r0 r1 r2 :
  read_lines h1 (ww c r0 r1 r2) = (Ok r1, ww c r0 [] r2).
Proof.
  destruct distinct_ne as (?&?&?&?&?&?).
  unfold read_lines, web_world, set_handle; simpl.
  rewrite !lookup_insert_ne, lookup_insert_eq by done.
  do 2 f_equal. apply map_eq; intros i.
  rewrite !lookup_insert. repeat case_decide; congruence.
Qed.

Lemma read_web2 c r0 r1 r2 :
  read_lines h2 (ww c r0 r1 r2) = (Ok r2, ww c r0 r1 []).
Proof.
  destruct distinct_ne as (?&?&?&?&?&?).
  unfold read_lines, web_world, set_handle; simpl.
  rewrite !lookup_insert_ne, lookup_insert_eq by done.
  do 2 f_equal. apply map_eq; intros i.
  rewrite !lookup_insert. repeat case_decide; congruence.
Qed.

(** The loop over one source file. *)
Lemma webout_fold_run ws sc c r0 r1 r2 :
  ∃ sc', foldM (webout_line o) sc ws (ww c r0 r1 r2)
         = (Ok sc', ww (c +:+ join (map put_stmt (webout_lines sc ws))) r0 r1 r2).
Proof.
  revert sc c. induction ws as [|x ws IH]; intros sc c.
  - exists sc. simpl. by rewrite str_app_nil_r.
  - rewrite foldM_cons. unfold webout_line at 1. simpl webout_lines.
    destruct (String.eqb x comment_close); [apply IH|].
    destruct (sc =? 0); [|apply IH].
    erewrite bind_run by apply write_web.
    destruct (IH sc (c +:+ put_stmt x)) as [sc' Hrun].
    exists sc'. unfold mret, M_ret, ret. rewrite Hrun.
    by rewrite map_cons, join_cons, str_app_assoc.
Qed.

Lemma webout_loop_run0 c r0 r1 r2 :
  (for_lines h0 (webout_line o) 1 ;; mret ()) (ww c r0 r1 r2)
  = (Ok (), ww (c +:+ join (map put_stmt (webout_lines 1 r0))) [] r1 r2).
Proof.
  unfold for_lines.
  destruct (webout_fold_run r0 1 c [] r1 r2) as [sc' Hrun].
  erewrite bind_run; [done|].
  unfold bind. by rewrite read_web0, Hrun.
Qed.

Lemma webout_loop_run1 c r0 r1 r2 :
  (for_lines h1 (webout_line o) 1 ;; mret ()) (ww c r0 r1 r2)
  = (Ok (), ww (c +:+ join (map put_stmt (webout_lines 1 r1))) r0 [] r2).
Proof.
  unfold for_lines.
  destruct (webout_fold_run r1 1 c r0 [] r2) as [sc' Hrun].
  erewrite bind_run; [done|].
  unfold bind. by rewrite read_web1, Hrun.
Qed.

Lemma webout_loop_run2 c r0 r1 r2 :
  (for_lines h2 (webout_line o) 1 ;; mret ()) (ww c r0 r1 r2)
  = (Ok (), ww (c +:+ join (map put_stmt (webout_lines 1 r2))) r0 r1 []).
Proof.
  unfold for_lines.
  destruct (webout_fold_run r2 1 c r0 r1 []) as [sc' Hrun].
  erewrite bind_run; [done|].
  unfold bind. by rewrite read_web2, Hrun.
Qed.

(** The loop over the three sources, at a begin marker. *)
Lemma webout_block_run c r0 r1 r2 :
  for_each [h0; h1; h2]
    (λ weboutfile, for_lines weboutfile (webout_line o) 1 ;; mret ())
    (ww c r0 r1 r2)
  = (Ok (), ww (c +:+ join (webout_block [r0; r1; r2])) [] [] []).
Proof.
  unfold for_each. rewrite foldM_cons, webout_loop_run0.
  rewrite foldM_cons, webout_loop_run1.
  rewrite foldM_cons, webout_loop_run2.
  unfold webout_block. simpl.
  by rewrite app_nil_r, !join_app, !str_app_assoc.
Qed.

(** The loop over the lines of the target. *)
Lemma splice_loop_run lines delrow c r0 r1 r2 :
  ∃ delrow' r0' r1' r2',
    foldM (splice_line o [h0; h1; h2]) delrow lines (ww c r0 r1 r2)
    = (Ok delrow',
       ww (c +:+ join (splice_lines delrow [r0; r1; r2] lines)) r0' r1' r2').
Proof.
  revert delrow c r0 r1 r2.
  induction lines as [|line lines IH]; intros delrow c r0 r1 r2.
  - exists delrow, r0, r1, r2. simpl. by rewrite str_app_nil_r.
  - rewrite foldM_cons. unfold splice_line at 1. simpl splice_lines.
    destruct (String.eqb line webout_begin).
    { erewrite bind_run by apply write_web.
      erewrite bind_run by apply webout_block_run.
      destruct (IH 1 ((c +:+ webout_begin) +:+ join (webout_block [r0; r1; r2]))
                  [] [] []) as (d & a & b & e & Hrun).
      exists d, a, b, e. unfold mret, M_ret, ret. rewrite Hrun.
      by rewrite join_cons, join_app, !str_app_assoc. }
    destruct ((delrow =? 1) && String.eqb line webout_end).
    { erewrite bind_run by apply write_web.
      destruct (IH 0 (c +:+ webout_end) r0 r1 r2) as (d & a & b & e & Hrun).
      exists d, a, b, e. unfold mret, M_ret, ret. rewrite Hrun.
      by rewrite join_cons, !str_app_assoc. }
    destruct (delrow =? 0); [|apply IH].
    erewrite bind_run by apply write_web.
    destruct (IH delrow (c +:+ (rstrip line +:+ nl)) r0 r1 r2)
      as (d & a & b & e & Hrun).
    exists d, a, b, e. unfold mret, M_ret, ret. rewrite Hrun.
    by rewrite join_cons, !str_app_assoc.
Qed.

End web_run.

Lemma str_length_app s t : String.length (s +:+ t) = String.length s + String.length t.
Proof. induction s as [|c s IH]; [done|]. rewrite str_app_cons. simpl. by rewrite IH. Qed.

Lemma temp_ne file : file +:+ "TEMP" ≠ file.
Proof.
  intros H. apply (f_equal String.length) in H.
  rewrite str_length_app in H. simpl in H. lia.
Qed.

Lemma open_r_run path txt w :
  files w !! path = Some txt →
  open_ path ModeR w =
  (Ok (next_handle w),
   World (files w)
         (<[next_handle w := Handle path ModeR (lines_of txt) true]> (handles w))
         (S (next_handle w)) (trace w ++ [EvOpen (next_handle w) path])).
Proof. intros H. unfold open_. by rewrite H. Qed.

(** Closing a handle that exists succeeds, keeps the files and keeps
    every handle in the table. *)
Lemma close_run h w :
  is_Some (handles w !! h) →
  ∃ w', close h w = (Ok (), w') ∧ files w' = files w
        ∧ trace w' = trace w ++ [EvClose h]
        ∧ ∀ h', is_Some (handles w !! h') → is_Some (handles w' !! h').
Proof.
  intros [hd Hhd]. unfold close. rewrite Hhd. eexists; split; [done|].
  split; [done|]. split; [done|]. simpl. intros h' Hh'.
  rewrite lookup_insert. by case_decide.
Qed.

(** One turn of the web stage: the target is replaced by its spliced
    text, and the temporary file is gone. *)
Lemma splice_file_run w file t s0 s1 s2 :
  files w !! "base/mp_jsonout.sas" = Some s0 →
  files w !! (if String.eqb file "viya/mv_createwebservice.sas"
              then "viya/mv_webout.sas" else "meta/mm_webout.sas") = Some s1 →
  files w !! "base/mf_getuser.sas" = Some s2 →
  files w !! file = Some t →
  ∃ w', splice_file file w = (Ok (), w')
        ∧ files w' = <[file := spliced t [s0; s1; s2]]>
                       (delete (file +:+ "TEMP") (files w))
        ∧ trace w' = trace w ++ turn_events (next_handle w) file.
Proof.
  intros H0 H1 H2 Ht. unfold splice_file.
  pose proof (temp_ne file) as Htmp.
  set (n := next_handle w).
  set (p1 := if String.eqb file "viya/mv_createwebservice.sas"
             then "viya/mv_webout.sas" else "meta/mm_webout.sas") in *.
  erewrite bind_run by (by apply open_r_run).
  erewrite bind_run; cycle 1.
  { instantiate (1 := World (files w)
      (<[S n := Handle p1 ModeR (lines_of s1) true]>
         (<[n := Handle "base/mp_jsonout.sas" ModeR (lines_of s0) true]> (handles w)))
      (S (S n))
      ((trace w ++ [EvOpen n "base/mp_jsonout.sas"]) ++ [EvOpen (S n) p1])).
    instantiate (1 := S n).
    subst p1. destruct (String.eqb file "viya/mv_createwebservice.sas");
      by erewrite open_r_run by done. }
  erewrite bind_run by (by apply open_r_run).
  erewrite bind_run by done.
  erewrite bind_run; cycle 1.
  { apply open_r_run. simpl. by rewrite lookup_insert_ne. }
  simpl next_handle. simpl files. simpl handles. simpl trace.
  set (wB := World (files w)
               (<[S (S (S (S n))) := Handle file ModeR [] true]> (handles w))
               (S (S (S (S (S n)))))
               (((((trace w ++ [EvOpen n "base/mp_jsonout.sas"]) ++ [EvOpen (S n) p1])
                   ++ [EvOpen (S (S n)) "base/mf_getuser.sas"])
                   ++ [EvOpen (S (S (S n))) (file +:+ "TEMP")])
                   ++ [EvOpen (S (S (S (S n)))) file])).
  assert (Hd : NoDup [S (S (S n)); n; S n; S (S n)]).
  { repeat (apply NoDup_cons_2; [rewrite ?elem_of_cons, elem_of_nil; lia|]).
    apply NoDup_nil_2. }
  destruct (splice_loop_run wB (file +:+ "TEMP") "base/mp_jsonout.sas" p1
              "base/mf_getuser.sas" _ _ _ _ Hd (lines_of t) 0 ""
              (lines_of s0) (lines_of s1) (lines_of s2))
    as (d & r0 & r1 & r2 & Hloop).
  erewrite bind_run; cycle 1.
  { unfold for_lines. unfold bind at 1. unfold read_lines. simpl.
    rewrite lookup_insert_eq. unfold set_handle. simpl.
    match goal with |- foldM _ _ _ ?W = _ =>
      replace W with (web_world wB (file +:+ "TEMP") "base/mp_jsonout.sas" p1
        "base/mf_getuser.sas" (S (S (S n))) n (S n) (S (S n)) ""
        (lines_of s0) (lines_of s1) (lines_of s2)) end.
    { apply Hloop. }
    unfold web_world, wB. simpl. f_equal.
    apply map_eq; intros i. rewrite !lookup_insert.
    repeat case_decide; try done; lia. }
  rewrite str_app_nil_l.
  set (c := join _) in *.
  match goal with |- ∃ w', _ ?W = _ ∧ _ => set (w1 := W) end.
  assert (Hf1 : files w1 = <[file +:+ "TEMP" := c]> (files w)) by done.
  assert (Ht1 : trace w1 = trace wB) by done.
  assert (Hh1 : ∀ h, h ∈ [n; S n; S (S (S n)); S (S (S (S n)))] →
                     is_Some (handles w1 !! h)).
  { intros h Hh. unfold w1, web_world, wB. simpl.
    rewrite !lookup_insert. repeat case_decide; try done.
    rewrite !elem_of_cons, elem_of_nil in Hh. lia. }
  clearbody w1. clear Hloop.
  destruct (close_run n w1) as (w2 & Hc2 & Hf2 & Ht2 & Hh2); [apply Hh1; rewrite !elem_of_cons; naive_solver|].
  destruct (close_run (S n) w2) as (w3 & Hc3 & Hf3 & Ht3 & Hh3);
    [apply Hh2, Hh1; rewrite !elem_of_cons; naive_solver|].
  destruct (close_run (S (S (S n))) w3) as (w4 & Hc4 & Hf4 & Ht4 & Hh4);
    [apply Hh3, Hh2, Hh1; rewrite !elem_of_cons; naive_solver|].
  destruct (close_run (S (S (S (S n)))) w4) as (w5 & Hc5 & Hf5 & Ht5 & Hh5);
    [apply Hh4, Hh3, Hh2, Hh1; rewrite !elem_of_cons; naive_solver|].
  erewrite bind_run by apply Hc2.
  erewrite bind_run by apply Hc3.
  erewrite bind_run by apply Hc4.
  erewrite bind_run by apply Hc5.
  assert (Hf : files w5 = <[file +:+ "TEMP" := c]> (files w)) by congruence.
  unfold mbind, M_bind, bind, remove, rename.
  rewrite Hf, lookup_insert_ne, Ht by done. simpl.
  rewrite lookup_delete_ne, lookup_insert_eq by done.
  eexists; split; [done|]. simpl. split; cycle 1.
  { rewrite Ht5, Ht4, Ht3, Ht2, Ht1. unfold wB, turn_events. simpl.
    fold n. by rewrite <- !(assoc_L (++)). }
  apply map_eq; intros i. fold c.
  destruct (decide (i = file)) as [->|Hi1]; [by rewrite !lookup_insert_eq|].
  rewrite !lookup_insert_ne by done.
  destruct (decide (i = file +:+ "TEMP")) as [->|Hi2];
    [by rewrite !lookup_delete_eq|].
  by rewrite !lookup_delete_ne, lookup_insert_ne by done.
Qed.

(** ** Facts about the loops of the web stage *)

Lemma webout_lines_open ws :
  comment_close ∉ ws → webout_lines 0 ws = ws.
Proof.
  induction ws as [|x ws IH]; [done|]. intros Hnot.
  apply not_elem_of_cons in Hnot as [Hx Hws]. simpl.
  destruct (String.eqb_spec x comment_close); [congruence|].
  by rewrite IH.
Qed.

Lemma webout_lines_header pre ws :
  comment_close ∉ pre → webout_lines 1 (pre ++ ws) = webout_lines 1 ws.
Proof.
  induction pre as [|x pre IH]; [done|]. intros Hnot.
  apply not_elem_of_cons in Hnot as [Hx Hpre]. simpl.
  destruct (String.eqb_spec x comment_close); [congruence|]. by apply IH.
Qed.

Lemma webout_lines_close sc ws :
  webout_lines sc (comment_close :: ws) = webout_lines 0 ws.
Proof. reflexivity. Qed.

(** In general the loop keeps, of what follows the first close line,
    every line that is not a close line itself. *)
Lemma webout_lines_filter ws :
  webout_lines 0 ws = filter (λ x, x ≠ comment_close) ws.
Proof.
  induction ws as [|x ws IH]; [done|]. simpl.
  destruct (String.eqb_spec x comment_close) as [->|Hne].
  - rewrite filter_cons_False; [done|]. by intros ?.
  - by rewrite filter_cons_True, IH.
Qed.

Lemma drained_is_drained srcs : is_drained (drained srcs).
Proof. unfold is_drained, drained. apply Forall_fmap. by apply Forall_true. Qed.

Lemma drained_id srcs : is_drained srcs → drained srcs = srcs.
Proof.
  induction 1 as [|r srcs -> _ IH]; [done|].
  unfold drained in *. simpl. by rewrite IH.
Qed.

Lemma webout_block_drained srcs : is_drained srcs → webout_block srcs = [].
Proof.
  induction 1 as [|r srcs -> _ IH]; [done|]. unfold webout_block in *. simpl. done.
Qed.

Lemma splice_lines_app delrow srcs l1 l2 :
  splice_lines delrow srcs (l1 ++ l2) =
  splice_lines delrow srcs l1
  ++ splice_lines (splice_state delrow srcs l1).1 (splice_state delrow srcs l1).2 l2.
Proof.
  revert delrow srcs. induction l1 as [|x l1 IH]; intros delrow srcs; [done|].
  simpl. destruct (String.eqb x webout_begin).
  { rewrite IH. simpl. by rewrite (assoc_L (++)). }
  destruct ((delrow =? 1) && String.eqb x webout_end).
  { by rewrite IH. }
  destruct (delrow =? 0); by rewrite IH.
Qed.

Lemma splice_state_begin delrow srcs pre :
  ∃ srcs', splice_state delrow srcs (pre ++ [webout_begin]) = (1, srcs')
           ∧ is_drained srcs'.
Proof.
  revert delrow srcs. induction pre as [|x pre IH]; intros delrow srcs.
  - simpl. eauto using drained_is_drained.
  - simpl. destruct (String.eqb x webout_begin); [apply IH|].
    destruct ((delrow =? 1) && String.eqb x webout_end); apply IH.
Qed.

(** While suppressing, with the sources read to their end and no end
    marker ahead, only further begin lines are written. *)
Lemma splice_lines_suppress srcs post :
  is_drained srcs → webout_end ∉ post →
  splice_lines 1 srcs post = filter (λ l, l = webout_begin) post.
Proof.
  intros Hd. induction post as [|x post IH]; [done|]. intros Hnot.
  apply not_elem_of_cons in Hnot as [Hx Hpost]. simpl.
  destruct (String.eqb_spec x webout_begin) as [->|Hne].
  - rewrite webout_block_drained, drained_id by done.
    rewrite filter_cons_True by done. simpl. by rewrite IH.
  - destruct (String.eqb_spec x webout_end); [congruence|]. simpl.
    rewrite filter_cons_False by done. by apply IH.
Qed.

Lemma splice_lines_truncate srcs pre post :
  webout_end ∉ post →
  splice_lines 0 srcs (pre ++ webout_begin :: post) =
  splice_lines 0 srcs (pre ++ [webout_begin])
  ++ filter (λ l, l = webout_begin) post.
Proof.
  intros Hpost.
  rewrite (cons_middle webout_begin pre post), (assoc_L (++)), splice_lines_app.
  destruct (splice_state_begin 0 srcs pre) as (srcs' & -> & Hd). simpl.
  by rewrite splice_lines_suppress.
Qed.

(** Without a begin marker every line is copied, trimmed on the right
    and closed by one newline. *)
Lemma splice_lines_copy srcs lines :
  webout_begin ∉ lines →
  splice_lines 0 srcs lines = map (λ l, rstrip l +:+ nl) lines.
Proof.
  induction lines as [|x lines IH]; [done|]. intros Hnot.
  apply not_elem_of_cons in Hnot as [Hx Hlines]. simpl.
  destruct (String.eqb_spec x webout_begin); [congruence|]. simpl.
  by rewrite IH.
Qed.

(** ** Running the primitives *)

Lemma write_run h p c s w :
  handles w !! h = Some (Handle p ModeW [] true) →
  files w !! p = Some c →
  write h s w = (Ok (), set_files (<[p := c +:+ s]> (files w)) w).
Proof. intros Hh Hp. unfold write. by rewrite Hh, Hp. Qed.

Lemma set_files_twice fs1 fs2 w :
  set_files fs2 (set_files fs1 w) = set_files fs2 w.
Proof. reflexivity. Qed.

Lemma set_files_id w : set_files (files w) w = w.
Proof. by destruct w. Qed.

(** A loop whose body only writes [f x] to one handle. *)
Lemma write_fold_run {A} (f : A → string) (xs : list A) h p c w :
  handles w !! h = Some (Handle p ModeW [] true) →
  files w !! p = Some c →
  foldM (λ _ x, write h (f x)) () xs w
  = (Ok (), set_files (<[p := c +:+ join (map f xs)]> (files w)) w).
Proof.
  revert c w. induction xs as [|x xs IH]; intros c w Hh Hp.
  - simpl. unfold ret. rewrite str_app_nil_r, insert_id by done.
    by rewrite set_files_id.
  - rewrite foldM_cons. erewrite write_run by done.
    erewrite IH; [|done|by apply lookup_insert_eq].
    simpl files. rewrite set_files_twice, insert_insert_eq.
    by rewrite map_cons, join_cons, str_app_assoc.
Qed.

(** [with open(path) as h: body]: what is known once the body has
    run. *)
Lemma with_open_run {A} path md (body : nat → M A) w h w1 r w2 :
  open_ path md w = (Ok h, w1) →
  body h w1 = (r, w2) →
  ∃ w3, with_open path md body w = (r, w3)
        ∧ files w3 = files w2
        ∧ next_handle w3 = next_handle w2
        ∧ ∀ h', h' ≠ h → handles w3 !! h' = handles w2 !! h'.
Proof.
  intros Hopen Hbody. unfold with_open. rewrite Hopen, Hbody.
  eexists; split; [done|]. unfold close.
  destruct (handles w2 !! h) as [hd|]; simpl; [|done].
  repeat split. intros h' Hne. by rewrite lookup_insert_ne.
Qed.

(** [with open(path) as infile: out.write(infile.read())] *)
Lemma copy_file_run w o out c path txt :
  handles w !! o = Some (Handle out ModeW [] true) →
  o < next_handle w →
  files w !! out = Some c →
  files w !! path = Some txt →
  ∃ w', with_open path ModeR (λ infile, txt ← read infile; write o txt) w
        = (Ok (), w')
        ∧ files w' = <[out := c +:+ txt]> (files w)
        ∧ next_handle w ≤ next_handle w'
        ∧ ∀ h, h < next_handle w → handles w' !! h = handles w !! h.
Proof.
  intros Ho Hlt Hout Hpath.
  edestruct (with_open_run path ModeR
               (λ infile, txt ← read infile; write o txt) w)
    as (w3 & Hrun & Hf & Hn & Hh).
  { by apply open_r_run. }
  { unfold read. erewrite bind_run; cycle 1.
    { unfold bind, read_lines. simpl. rewrite lookup_insert_eq. done. }
    rewrite join_lines_of. apply write_run; simpl.
    - rewrite !lookup_insert_ne by lia. done.
    - done. }
  exists w3. split; [done|]. rewrite Hf, Hn. simpl. split; [done|].
  split; [lia|]. intros h Hh'. rewrite Hh by lia. simpl.
  by rewrite !lookup_insert_ne by lia.
Qed.

(** [with open(path) as infile: for line in infile: out.write(f(line))] *)
Lemma map_file_run (f : string → string) w o out c path txt :
  handles w !! o = Some (Handle out ModeW [] true) →
  o < next_handle w →
  files w !! out = Some c →
  files w !! path = Some txt →
  ∃ w', with_open path ModeR
          (λ infile, for_lines infile (λ _ line, write o (f line)) ()) w
        = (Ok (), w')
        ∧ files w' = <[out := c +:+ join (map f (lines_of txt))]> (files w)
        ∧ next_handle w ≤ next_handle w'
        ∧ ∀ h, h < next_handle w → handles w' !! h = handles w !! h.
Proof.
  intros Ho Hlt Hout Hpath.
  edestruct (with_open_run path ModeR
               (λ infile, for_lines infile (λ _ line, write o (f line)) ()) w)
    as (w3 & Hrun & Hf & Hn & Hh).
  { by apply open_r_run. }
  { unfold for_lines, bind, read_lines. simpl. rewrite lookup_insert_eq.
    apply write_fold_run; simpl.
    - rewrite !lookup_insert_ne by lia. done.
    - done. }
  exists w3. split; [done|]. rewrite Hf, Hn. simpl. split; [done|].
  split; [lia|]. intros h Hh'. rewrite Hh by lia. simpl.
  by rewrite !lookup_insert_ne by lia.
Qed.

(** ** The Lua stage writes the macro text *)

Ltac step_write :=
  erewrite bind_run by (eapply write_run; simpl; apply lookup_insert_eq).

(** One turn of the Lua stage creates the macro file: the fixed
    opening, one [put] per line of the Lua file, the fixed ending. *)
Lemma embed_file_run w file txt :
  files w !! file = Some txt →
  file ≠ "lua/" +:+ ml_name file +:+ ".sas" →
  ∃ w', embed_file file w = (Ok (next_handle w), w')
        ∧ files w' =
          <["lua/" +:+ ml_name file +:+ ".sas" :=
              ml_prologue (ml_name file) (basename file)
              +:+ join (ml_body (lines_of txt))
              +:+ ml_epilogue (ml_name file)]> (files w)
        ∧ next_handle w < next_handle w'
        ∧ (∀ h, h < next_handle w → handles w' !! h = handles w !! h)
        ∧ is_Some (handles w' !! next_handle w).
Proof.
  intros Hfile Hne. unfold embed_file.
  fold (ml_name file).
  set (name := ml_name file) in *.
  set (out := "lua/" +:+ name +:+ ".sas") in *.
  set (n := next_handle w).
  erewrite bind_run by reflexivity.
  do 11 step_write.
  match goal with |- ∃ w', (_ ≫= _) ?W = _ ∧ _ => set (w1 := W) end.
  set (c1 := ml_prologue name (basename file)).
  assert (Hc1 : files w1 !! out = Some ("" +:+ c1)).
  { unfold w1. simpl. rewrite lookup_insert_eq. f_equal.
    unfold c1, ml_prologue, join. simpl.
    by rewrite !str_app_assoc, ?str_app_nil_r. }
  assert (Hf1 : ∀ q, q ≠ out → files w1 !! q = files w !! q).
  { intros q Hq. unfold w1. simpl. by rewrite !lookup_insert_ne. }
  assert (Hh1 : handles w1 = <[n := Handle out ModeW [] true]> (handles w)) by done.
  assert (Hn1 : next_handle w1 = S n) by done.
  clearbody w1.
  destruct (map_file_run put_stmt w1 n out ("" +:+ c1) file txt)
    as (w2 & Hrun & Hf2 & Hn2 & Hh2).
  { rewrite Hh1. apply lookup_insert_eq. }
  { lia. }
  { done. }
  { by rewrite Hf1. }
  erewrite bind_run by apply Hrun.
  assert (Ho2 : handles w2 !! n = Some (Handle out ModeW [] true)).
  { rewrite Hh2 by lia. rewrite Hh1. apply lookup_insert_eq. }
  erewrite bind_run by (eapply write_run; [apply Ho2|rewrite Hf2; apply lookup_insert_eq]).
  do 2 (erewrite bind_run
          by (eapply write_run; simpl; [apply Ho2|apply lookup_insert_eq])).
  eexists. split; [done|]. simpl. rewrite Hf2.
  split; [|split; [lia|split]].
  - apply map_eq; intros q. destruct (decide (q = out)) as [->|Hq].
    + rewrite !lookup_insert_eq. f_equal.
      unfold ml_epilogue, ml_body, join. simpl.
      by rewrite !str_app_assoc, ?str_app_nil_r.
    + rewrite !lookup_insert_ne by done. by apply Hf1.
  - intros h Hh. rewrite Hh2 by lia. rewrite Hh1. by rewrite lookup_insert_ne by lia.
  - rewrite Ho2. eauto.
Qed.

(** ** The concatenation stage *)

Lemma plain_listing_valid : valid_listing plain_listing.
Proof.
  intros fs d. unfold plain_listing. split.
  - apply NoDup_filter, NoDup_fst_map_to_list.
  - intros x. rewrite list_elem_of_filter, list_elem_of_fmap. split.
    + intros [Hd ([k v] & -> & Hkv)]. apply elem_of_map_to_list in Hkv.
      simpl in *. eauto.
    + intros [[v Hv] Hd]. split; [done|]. exists (x, v). split; [done|].
      by apply elem_of_map_to_list.
Qed.

(** Sorting forgets the order of the listing. *)
Lemma members_perm l1 l2 : l1 ≡ₚ l2 → members l1 = members l2.
Proof.
  intros Hp. unfold members, sort_paths.
  apply (Sorted_unique String.le); try apply Sorted_merge_sort; try apply _.
  rewrite !merge_sort_Permutation. by rewrite Hp.
Qed.

Lemma elem_of_members x l :
  x ∈ members l ↔ match_ext ".sas" x = true ∧ x ∈ l.
Proof.
  unfold members, sort_paths.
  rewrite merge_sort_Permutation, list_elem_of_filter. done.
Qed.

Lemma category_text_canonical os fs fs' d :
  valid_listing os → same_folders fs fs' → d ∈ folders →
  category_text fs (os fs d) = category_text fs' (plain_listing fs' d).
Proof.
  intros Hos Hsame Hd. unfold category_text.
  assert (Hm : members (os fs d) = members (plain_listing fs' d)).
  { apply members_perm. apply NoDup_Permutation.
    - apply Hos.
    - apply plain_listing_valid.
    - intros x. rewrite (proj2 (Hos fs d) x), (proj2 (plain_listing_valid fs' d) x).
      split; intros [Hx <-]; (split; [|done]).
      + by rewrite <- Hsame.
      + by rewrite Hsame. }
  rewrite Hm. f_equal. apply map_ext_in. intros p Hp.
  apply list_elem_of_In, elem_of_members in Hp as [_ Hp].
  apply (proj2 (plain_listing_valid fs' d)) in Hp as [_ <-].
  by rewrite Hsame.
Qed.

(** [for fname in filenames: with open(fname) as infile:
    outfile.write(infile.read())] *)
Lemma copy_loop_run filenames w o out c :
  handles w !! o = Some (Handle out ModeW [] true) →
  o < next_handle w →
  files w !! out = Some c →
  Forall (λ p, p ≠ out ∧ is_Some (files w !! p)) filenames →
  ∃ w', for_each filenames
          (λ fname, with_open fname ModeR (λ infile, txt ← read infile; write o txt)) w
        = (Ok (), w')
        ∧ files w' = <[out := c +:+ join (map (λ p, default "" (files w !! p)) filenames)]>
                       (files w)
        ∧ next_handle w ≤ next_handle w'
        ∧ ∀ h, h < next_handle w → handles w' !! h = handles w !! h.
Proof.
  revert w c. induction filenames as [|p ps IH]; intros w c Ho Hlt Hout Hall.
  - exists w. simpl. rewrite str_app_nil_r, insert_id by done. done.
  - apply Forall_cons in Hall as [[Hp [txt Htxt]] Hps].
    destruct (copy_file_run w o out c p txt) as (w1 & Hrun & Hf1 & Hn1 & Hh1);
      [done..|].
    destruct (IH w1 (c +:+ txt)) as (w2 & Hrun2 & Hf2 & Hn2 & Hh2).
    { by rewrite Hh1. }
    { lia. }
    { rewrite Hf1. apply lookup_insert_eq. }
    { eapply Forall_impl; [apply Hps|]. intros q [Hq Hsome].
      split; [done|]. rewrite Hf1. by rewrite lookup_insert_ne. }
    exists w2. unfold for_each in *. rewrite foldM_cons, Hrun. split; [done|].
    split; [|split; [lia|]].
    + rewrite Hf2, Hf1, insert_insert_eq. f_equal.
      rewrite map_cons, join_cons, Htxt, str_app_assoc. simpl. do 3 f_equal.
      apply map_ext_in. intros q Hq. apply list_elem_of_In in Hq.
      rewrite Forall_forall in Hps. destruct (Hps q Hq) as [Hne _].
      by rewrite lookup_insert_ne.
    + intros h Hh. rewrite Hh2 by lia. by apply Hh1.
Qed.

Lemma empty_not_folder : "" ∉ folders.
Proof.
  unfold folders. rewrite !elem_of_cons, elem_of_nil.
  intros [H|[H|[H|[H|[H|[]]]]]]; discriminate.
Qed.

Lemma str_app_inj_r s t u : s +:+ u = t +:+ u → s = t.
Proof.
  intros H. assert (Hlen : String.length s = String.length t).
  { apply (f_equal String.length) in H. rewrite !str_length_app in H. lia. }
  revert t H Hlen. induction s as [|c s IH]; intros [|d t] H Hlen;
    try done; simpl in Hlen; try lia.
  rewrite !str_app_cons in H. injection H as -> H. f_equal. apply IH; [done|lia].
Qed.

Lemma mc_inj d d' : "mc_" +:+ d +:+ ".sas" = "mc_" +:+ d' +:+ ".sas" → d = d'.
Proof. intros H. apply String.app_inj in H. by apply str_app_inj_r in H. Qed.

Lemma mc_outside folder :
  folder ∈ folders → dirname ("mc_" +:+ folder +:+ ".sas") = "".
Proof.
  unfold folders. rewrite !elem_of_cons, elem_of_nil.
  intros [->|[->|[->|[->|[->|[]]]]]]; by vm_compute.
Qed.

Section concat_run.

Variable os : gmap string string → string → list string.
Hypothesis os_valid : valid_listing os.

(** One turn of the loop over the folders: [mc_<folder>.sas] gets the
    members' texts, and [all.sas] gets them appended. *)
Lemma concat_folder_run w f cf folder :
  folder ∈ folders →
  handles w !! f = Some (Handle "all.sas" ModeW [] true) →
  f < next_handle w →
  files w !! "all.sas" = Some cf →
  let cat := category_text (files w) (os (files w) folder) in
  ∃ w', concat_folder os f folder w = (Ok (), w')
        ∧ files w' = <["all.sas" := cf +:+ cat]>
                       (<["mc_" +:+ folder +:+ ".sas" := cat]> (files w))
        ∧ next_handle w ≤ next_handle w'
        ∧ ∀ h, h < next_handle w → handles w' !! h = handles w !! h.
Proof.
  intros Hfolder Hf Hlt Hcf cat.
  set (mc := "mc_" +:+ folder +:+ ".sas").
  assert (Hmc : dirname mc ≠ folder ∧ mc ≠ "all.sas").
  { unfold mc, folders in *. rewrite !elem_of_cons, elem_of_nil in Hfolder.
    destruct Hfolder as [->|[->|[->|[->|[->|[]]]]]]; by vm_compute. }
  destruct Hmc as [Hmc Hall].
  unfold concat_folder. fold mc.
  erewrite bind_run by reflexivity.
  set (filenames := sort_paths (filter _ _)).
  assert (Hfn : Forall (λ p, p ≠ mc ∧ is_Some (files w !! p)) filenames).
  { apply Forall_forall. intros p Hp.
    apply (elem_of_members p (os (files w) folder)) in Hp as [_ Hp].
    apply os_valid in Hp as [Hsome Hd]. split; [|done]. by intros ->. }
  set (n := next_handle w).
  set (w1 := World (<[mc := ""]> (files w))
                   (<[n := Handle mc ModeW [] true]> (handles w))
                   (S n) (trace w ++ [EvOpen n mc])).
  destruct (copy_loop_run filenames w1 n mc "")
    as (w2 & Hrun2 & Hf2 & Hn2 & Hh2).
  { apply lookup_insert_eq. }
  { simpl. lia. }
  { apply lookup_insert_eq. }
  { eapply Forall_impl; [apply Hfn|]. intros p [Hp Hsome]. split; [done|].
    simpl. by rewrite lookup_insert_ne. }
  destruct (with_open_run mc ModeW
              (λ outfile, for_each filenames
                 (λ fname, with_open fname ModeR
                    (λ infile, txt ← read infile; write outfile txt)))
              w n w1 (Ok ()) w2) as (w3 & Hrun3 & Hf3 & Hn3 & Hh3); [done..|].
  erewrite bind_run by apply Hrun3.
  assert (Hcat : join (map (λ p, default "" (files w1 !! p)) filenames) = cat).
  { unfold cat, category_text. fold filenames. unfold members.
    f_equal. apply map_ext_in. intros p Hp. apply list_elem_of_In in Hp.
    rewrite Forall_forall in Hfn. destruct (Hfn p Hp) as [Hne _].
    simpl. by rewrite lookup_insert_ne. }
  rewrite Hcat, str_app_nil_l in Hf2. simpl in Hf2.
  rewrite insert_insert_eq in Hf2.
  destruct (copy_file_run w3 f "all.sas" cf mc cat)
    as (w4 & Hrun4 & Hf4 & Hn4 & Hh4).
  { rewrite Hh3 by (subst n; lia). rewrite Hh2 by (simpl; lia).
    simpl. by rewrite lookup_insert_ne by (subst n; lia). }
  { rewrite Hn3. simpl in Hn2. lia. }
  { rewrite Hf3, Hf2. by rewrite lookup_insert_ne. }
  { rewrite Hf3, Hf2. apply lookup_insert_eq. }
  exists w4. split; [done|]. split; [by rewrite Hf4, Hf3, Hf2|].
  split.
  - rewrite Hn3 in Hn4. simpl in Hn2. lia.
  - intros h Hh. rewrite Hh4 by (rewrite Hn3; simpl in Hn2; lia).
    rewrite Hh3 by (subst n; lia). rewrite Hh2 by (simpl; lia).
    simpl. by rewrite lookup_insert_ne by (subst n; lia).
Qed.

(** The loop over the folders, from any point on: [fs0] is the file
    system the stage started in. *)
Lemma concat_folders_run ds fs0 w f cf :
  Forall (λ d, d ∈ folders) ds →
  NoDup ds →
  handles w !! f = Some (Handle "all.sas" ModeW [] true) →
  f < next_handle w →
  files w !! "all.sas" = Some cf →
  same_folders (files w) fs0 →
  ∃ w', for_each ds (concat_folder os f) w = (Ok (), w')
        ∧ files w' !! "all.sas"
          = Some (cf +:+ join (map (λ d, category_text fs0 (plain_listing fs0 d)) ds))
        ∧ (∀ d, d ∈ ds →
             files w' !! ("mc_" +:+ d +:+ ".sas")
             = Some (category_text fs0 (plain_listing fs0 d)))
        ∧ (∀ p, p ≠ "all.sas" → (∀ d, d ∈ ds → p ≠ "mc_" +:+ d +:+ ".sas") →
             files w' !! p = files w !! p)
        ∧ same_folders (files w') fs0
        ∧ handles w' !! f = Some (Handle "all.sas" ModeW [] true).
Proof.
  revert w cf. induction ds as [|d ds IH]; intros w cf Hds Hnd Hf Hlt Hcf Hsame.
  - exists w. simpl. rewrite str_app_nil_r. repeat split; try done.
    intros d Hd. by apply elem_of_nil in Hd.
  - apply Forall_cons in Hds as [Hd Hds]. apply NoDup_cons in Hnd as [Hnotin Hnd].
    destruct (concat_folder_run w f cf d) as (w1 & Hrun & Hf1 & Hn1 & Hh1);
      [done..|].
    rewrite (category_text_canonical os (files w) fs0 d) in Hf1 by done.
    destruct (IH w1 (cf +:+ category_text fs0 (plain_listing fs0 d)))
      as (w2 & Hrun2 & Hall2 & Hmc2 & Hfr2 & Hsame2 & Hh2).
    { done. }
    { done. }
    { by rewrite Hh1. }
    { lia. }
    { rewrite Hf1. apply lookup_insert_eq. }
    { intros p Hp. rewrite Hf1.
      rewrite !lookup_insert_ne; [by apply Hsame| |].
      - intros <-. rewrite (mc_outside d) in Hp by done.
        by apply empty_not_folder in Hp.
      - intros <-. by apply empty_not_folder in Hp. }
    assert (Hmcall : ∀ d', d' ∈ folders → "mc_" +:+ d' +:+ ".sas" ≠ "all.sas").
    { intros d' _ Heq. discriminate Heq. }
    exists w2. unfold for_each in *. rewrite foldM_cons, Hrun.
    split; [done|]. split; [|split; [|split; [|done]]].
    + by rewrite Hall2, map_cons, join_cons, str_app_assoc.
    + intros d' Hd'. apply elem_of_cons in Hd' as [->|Hd']; [|by apply Hmc2].
      rewrite Hfr2.
      * rewrite Hf1, lookup_insert_ne, lookup_insert_eq; [done|].
        intros Heq. by apply (Hmcall d).
      * by apply Hmcall.
      * intros d' Hd' Heq. apply mc_inj in Heq as ->. done.
    + intros p Hp Hpmc. rewrite Hfr2.
      * rewrite Hf1, !lookup_insert_ne; [done| |done].
        intros Heq. apply (Hpmc d); [by left|done].
      * done.
      * intros d' Hd'. apply Hpmc. by right.
Qed.

(** The whole stage. *)
Lemma concat_stage_run w :
  ∃ w', concat_stage os w = (Ok (), w')
        ∧ files w' !! "all.sas" = Some (library_text (files w))
        ∧ ∀ d, d ∈ folders →
            files w' !! ("mc_" +:+ d +:+ ".sas")
            = Some (category_text (files w) (plain_listing (files w) d)).
Proof.
  unfold concat_stage.
  erewrite bind_run by reflexivity.
  erewrite bind_run by (eapply write_run; simpl; apply lookup_insert_eq).
  rewrite str_app_nil_l.
  match goal with |- ∃ w', (_ ≫= _) ?W = _ ∧ _ => set (w1 := W) end.
  destruct (concat_folders_run folders (files w) w1 (next_handle w) header)
    as (w2 & Hrun & Hall & Hmc & _ & Hsame & Hh).
  { by apply Forall_forall. }
  { unfold folders. repeat (apply NoDup_cons_2;
      [rewrite ?elem_of_cons, elem_of_nil; intros H;
       repeat (destruct H as [H|H]; [discriminate|]); done|]).
    apply NoDup_nil_2. }
  { apply lookup_insert_eq. }
  { simpl. lia. }
  { simpl. apply lookup_insert_eq. }
  { intros p Hp. simpl. rewrite !lookup_insert_ne; [done| |];
      intros <-; by apply empty_not_folder in Hp. }
  erewrite bind_run by apply Hrun.
  unfold close. rewrite Hh. eexists. split; [done|]. done.
Qed.

End concat_run.

Import Claimed Scenario.

(** ** A Lua file is never its own macro file *)

Lemma last_char_app s c t : last_char (s +:+ String c t) = last_char (String c t).
Proof.
  induction s as [|a s IH]; [done|]. rewrite str_app_cons.
  change (last_char (String a (s +:+ String c t)))
    with (match last_char (s +:+ String c t) with Some x => Some x | None => Some a end).
  rewrite IH. simpl. by destruct (last_char t).
Qed.

Lemma substring_all s : String.substring 0 (String.length s) s = s.
Proof. induction s as [|c s IH]; [done|]. simpl. by rewrite IH. Qed.

Lemma substring_suffix s n k suf :
  n + k = String.length s → String.substring n k s = suf →
  ∃ pre, s = pre +:+ suf.
Proof.
  revert s. induction n as [|n IH]; intros s Hlen Hsub.
  - exists "". simpl in Hlen. subst k. by rewrite substring_all in Hsub.
  - destruct s as [|c s]; [simpl in Hlen; lia|].
    simpl in Hlen, Hsub. destruct (IH s) as [pre ->]; [lia|done|].
    by exists (String c pre).
Qed.

Lemma endswith_app suf s : endswith suf s = true → ∃ pre, s = pre +:+ suf.
Proof.
  unfold endswith. intros H. apply andb_prop in H as [Hle Heq].
  apply Nat.leb_le in Hle. apply String.eqb_eq in Heq.
  eapply substring_suffix; [|done]. lia.
Qed.

Lemma last_char_basename p a :
  last_char (basename p) = Some a → last_char p = Some a.
Proof.
  induction p as [|c p IH]; [done|].
  change (basename (String c p))
    with (if has_slash (String c p) then basename p else String c p).
  destruct (has_slash (String c p)); [|done].
  intros H. simpl. by rewrite (IH H).
Qed.

Lemma lua_file_not_macro file :
  match_ext ".lua" file = true → file ≠ "lua/" +:+ ml_name file +:+ ".sas".
Proof.
  unfold match_ext. intros H Heq.
  apply endswith_app in H as [pre Hpre].
  assert (Ha : last_char file = Some "a"%char).
  { apply last_char_basename. rewrite Hpre. by rewrite last_char_app. }
  rewrite Heq in Ha.
  rewrite <- !str_app_assoc in Ha. by rewrite last_char_app in Ha.
Qed.

(** ** Lines of a text *)

Lemma lines_of_cons_line s rest :
  has_nl s = false → lines_of ((s +:+ nl) +:+ rest) = (s +:+ nl) :: lines_of rest.
Proof.
  induction s as [|c s IH]; [done|]. intros H. simpl in H.
  apply orb_false_elim in H as [Hc Hs].
  rewrite !str_app_cons. simpl. rewrite Hc, (IH Hs). done.
Qed.

Lemma lines_of_join ls :
  Forall (λ l, ∃ s, has_nl s = false ∧ l = s +:+ nl) ls →
  lines_of (join ls) = ls.
Proof.
  induction 1 as [|l ls (s & Hs & ->) _ IH]; [done|].
  by rewrite join_cons, lines_of_cons_line, IH.
Qed.

Lemma lines_of_shape t :
  Forall (λ l, ∃ s, has_nl s = false ∧ (l = s +:+ nl ∨ l = s)) (lines_of t).
Proof.
  induction t as [|c t IH]; [constructor|]. simpl.
  destruct (Ascii.eqb c "010") eqn:Hc.
  - apply Ascii.eqb_eq in Hc as ->. constructor; [|done].
    exists "". split; [done|]. by left.
  - destruct (lines_of t) as [|l ls].
    + constructor; [|done]. exists (String c ""). split; [|by right].
      simpl. by rewrite Hc.
    + apply Forall_cons in IH as [(s & Hs & Hl) IH]. constructor; [|done].
      exists (String c s). split; [simpl; by rewrite Hc, Hs|].
      destruct Hl as [->| ->]; [by left|by right].
Qed.

Lemma has_nl_rstrip s : has_nl s = false → has_nl (rstrip s) = false.
Proof.
  induction s as [|c s IH]; [done|]. simpl. intros H.
  apply orb_false_elim in H as [Hc Hs]. specialize (IH Hs).
  destruct (rstrip s) as [|a r].
  - destruct (isspace c); [done|]. simpl. by rewrite Hc.
  - simpl in *. by rewrite Hc, IH.
Qed.

Lemma has_nl_rstrip_line t l :
  l ∈ lines_of t → has_nl (rstrip l) = false.
Proof.
  intros Hl. pose proof (lines_of_shape t) as Hall.
  rewrite Forall_forall in Hall. destruct (Hall l Hl) as (s & Hs & [-> | ->]).
  - rewrite rstrip_blank_suffix by done. by apply has_nl_rstrip.
  - by apply has_nl_rstrip.
Qed.

Lemma map_fixed {A} (f : A → A) (l : list A) :
  map f l = l → Forall (λ x, f x = x) l.
Proof.
  induction l as [|x l IH]; [constructor|]. simpl. intros H.
  injection H as Hx Hl. constructor; auto.
Qed.

(** A text whose lines, trimmed and closed again, give the text back
    has only lines of that form. *)
Lemma trimmed_join_fixed t :
  join (map (λ l, rstrip l +:+ nl) (lines_of t)) = t →
  Forall (λ l, rstrip l +:+ nl = l) (lines_of t).
Proof.
  intros Heq. apply map_fixed.
  transitivity (lines_of (join (map (λ l, rstrip l +:+ nl) (lines_of t))));
    [|by rewrite Heq].
  symmetry. apply lines_of_join.
  apply Forall_fmap, Forall_forall. intros l Hl. simpl.
  exists (rstrip l). split; [|done]. by eapply has_nl_rstrip_line.
Qed.

(** ** Handles *)

Lemma open_after_app tr1 tr2 acc :
  open_after (tr1 ++ tr2) acc = open_after tr2 (open_after tr1 acc).
Proof.
  revert acc. induction tr1 as [|[h p|h] tr1 IH]; intros acc; simpl; auto.
Qed.

(** A turn of the web stage never closes its third source handle. *)
Lemma web_turn_leaves_handle_open w file t s0 s1 s2 :
  files w !! "base/mp_jsonout.sas" = Some s0 →
  files w !! webout1_path file = Some s1 →
  files w !! "base/mf_getuser.sas" = Some s2 →
  files w !! file = Some t →
  ∃ w', splice_file file w = (Ok (), w')
        ∧ S (S (next_handle w)) ∈ still_open w'.
Proof.
  intros H0 H1 H2 Ht.
  destruct (splice_file_run w file t s0 s1 s2 H0 H1 H2 Ht) as (w' & Hrun & _ & Htr).
  exists w'. split; [done|]. unfold still_open. rewrite Htr, open_after_app.
  unfold turn_events. simpl.
  rewrite !list_elem_of_filter, !elem_of_app, !list_elem_of_singleton.
  repeat split; lia.
Qed.

Lemma escape_cons c s :
  escape (String c s) =
  if Ascii.eqb c "'" then String c (String c (escape s)) else String c (escape s).
Proof.
  unfold escape. rewrite replace_quote_cons.
  destruct (Ascii.eqb_spec c "'") as [->|]; done.
Qed.

(** ** Paths of one folder are ordered as their file names *)

Lemma compare_app p a b :
  String.compare (p +:+ a) (p +:+ b) = String.compare a b.
Proof.
  induction p as [|c p IH]; [done|]. rewrite !str_app_cons. simpl.
  unfold Ascii.compare. by rewrite N.compare_refl.
Qed.

Lemma le_app p a b : String.le (p +:+ a) (p +:+ b) ↔ String.le a b.
Proof. unfold String.le, String.leb. by rewrite compare_app. Qed.

Lemma basename_cons c p :
  basename (String c p) = if has_slash (String c p) then basename p else String c p.
Proof. reflexivity. Qed.

Lemma basename_no_slash p : has_slash p = false → basename p = p.
Proof. destruct p as [|c p]; [done|]. intros H. by rewrite basename_cons, H. Qed.

Lemma length_basename p : String.length (basename p) ≤ String.length p.
Proof.
  induction p as [|c p IH]; [done|].
  rewrite basename_cons.
  destruct (has_slash (String c p)); simpl; lia.
Qed.

Lemma path_split p :
  has_slash p = true → p = dirname p +:+ "/" +:+ basename p.
Proof.
  induction p as [|c p IH]; [done|]. intros Hs.
  unfold dirname. rewrite basename_cons, Hs. destruct (has_slash p) eqn:Hp.
  - specialize (IH eq_refl). pose proof (length_basename p) as Hle.
    assert (Hlen : String.length p
                   = String.length (dirname p) + 1 + String.length (basename p)).
    { rewrite IH at 1. rewrite !str_length_app. simpl. lia. }
    unfold dirname in IH, Hlen.
    replace (String.length (String c p) - String.length (basename p) - 1)
      with (S (String.length p - String.length (basename p) - 1))
      by (simpl; lia).
    simpl String.substring. rewrite str_app_cons. by rewrite <- IH.
  - simpl in Hs. rewrite Hp, orb_false_r in Hs. apply Ascii.eqb_eq in Hs as ->.
    rewrite (basename_no_slash p Hp).
    replace (String.length (String "/" p) - String.length p - 1) with 0
      by (simpl; lia).
    done.
Qed.

Lemma dirname_has_slash p : dirname p ≠ "" → has_slash p = true.
Proof.
  intros Hd. destruct (has_slash p) eqn:Hp; [done|]. exfalso. apply Hd.
  unfold dirname. rewrite (basename_no_slash p Hp).
  replace (String.length p - String.length p - 1) with 0 by lia.
  by destruct p.
Qed.

(** Within one folder, comparing two paths is comparing their names. *)
Lemma le_same_folder p q :
  dirname p = dirname q → dirname p ≠ "" →
  String.le p q ↔ String.le (basename p) (basename q).
Proof.
  intros Heq Hne.
  rewrite (path_split p) at 1 by by apply dirname_has_slash.
  rewrite (path_split q) at 1 by (apply dirname_has_slash; congruence).
  rewrite Heq. by rewrite !le_app.
Qed.

(** ** The claims *)

(** C1 (as the code has it). With the begin line, one junk line and the
    end line, and one source of a single line that is not the close
    token, the junk line is dropped and nothing is written in its place;
    the line is written as one statement only when the close token
    precedes it in the source.  Both marker lines stay. *)
Theorem scenario_c_headerless_source (junk x : string) :
  junk ≠ webout_begin → junk ≠ webout_end → x ≠ comment_close →
  splice_lines 0 [[x]] [webout_begin; junk; webout_end]
  = [webout_begin; webout_end]
  ∧ splice_lines 0 [[comment_close; x]] [webout_begin; junk; webout_end]
    = [webout_begin; put_stmt x; webout_end].
Proof.
  intros Hb He Hx. unfold splice_lines, webout_block, drained. simpl.
  destruct (String.eqb_spec junk webout_begin); [done|].
  destruct (String.eqb_spec junk webout_end); [done|].
  destruct (String.eqb_spec x comment_close); [done|]. done.
Qed.

Lemma scenario_c_headerless_source_witness :
  splice_lines 0 [["x = 1" +:+ nl]] [webout_begin; "junk" +:+ nl; webout_end]
  = [webout_begin; webout_end]
  ∧ splice_lines 0 [[comment_close; "x = 1" +:+ nl]]
      [webout_begin; "junk" +:+ nl; webout_end]
    = [webout_begin; put_stmt ("x = 1" +:+ nl); webout_end].
Proof.
  apply (scenario_c_headerless_source ("junk" +:+ nl) ("x = 1" +:+ nl));
    discriminate.
Defined.

(** C1 fails as stated: no write statement takes the place of the junk
    line. *)
Lemma scenario_c_no_statement :
  splice_lines 0 [["x = 1" +:+ nl]] [webout_begin; "junk" +:+ nl; webout_end]
  ≠ [webout_begin; put_stmt ("x = 1" +:+ nl); webout_end].
Proof. vm_compute. discriminate. Qed.

(** C2 (as the code has it). A source file is cut at its first line that
    is exactly the close token followed by a newline: that line and all
    before it are dropped, and when no later line is again that token
    line, the lines after it are kept unchanged and in order; a file
    without such a line (the part before it, here) yields nothing. *)
Theorem comment_stripper_exact (pre post : list string) :
  comment_close ∉ pre → comment_close ∉ post →
  webout_lines 1 (pre ++ comment_close :: post) = post
  ∧ webout_lines 1 pre = [].
Proof.
  intros Hpre Hpost. split.
  - by rewrite webout_lines_header, webout_lines_close, webout_lines_open.
  - rewrite <- (app_nil_r pre). by rewrite webout_lines_header.
Qed.

Lemma comment_stripper_exact_witness :
  webout_lines 1 (["/**" +:+ nl; "  doc" +:+ nl] ++ comment_close
                  :: ["%macro x;" +:+ nl; "%mend;" +:+ nl])
  = ["%macro x;" +:+ nl; "%mend;" +:+ nl]
  ∧ webout_lines 1 ["/**" +:+ nl; "  doc" +:+ nl] = [].
Proof.
  apply (comment_stripper_exact ["/**" +:+ nl; "  doc" +:+ nl]
           ["%macro x;" +:+ nl; "%mend;" +:+ nl]).
  - rewrite !not_elem_of_cons. repeat split; try discriminate. apply not_elem_of_nil.
  - rewrite !not_elem_of_cons. repeat split; try discriminate. apply not_elem_of_nil.
Defined.

(** C2 fails as stated: a close token with a blank before it has the
    token as its trimmed content, yet the code does not take it for the
    end of the header and keeps nothing. *)
Lemma comment_stripper_not_trimmed :
  webout_lines 1 [" **/" +:+ nl; "x" +:+ nl]
  ≠ strip_comment [" **/" +:+ nl; "x" +:+ nl].
Proof. vm_compute. discriminate. Qed.

(** C3 (as the code has it). For a Lua file of N lines the macro file
    holds, between its fixed opening and ending, exactly N [put]
    statements in the order of the lines; each carries its line with the
    white space at its end (the newline included) removed and the quotes
    doubled, so a line that ends in no white space but its newline is
    reproduced verbatim. *)
Theorem embed_one_put_per_line (w : world) (file txt : string) :
  files w !! file = Some txt →
  match_ext ".lua" file = true →
  ∃ w', embed_file file w = (Ok (next_handle w), w')
        ∧ files w' !! ("lua/" +:+ ml_name file +:+ ".sas")
          = Some (ml_prologue (ml_name file) (basename file)
                  +:+ join (ml_body (lines_of txt))
                  +:+ ml_epilogue (ml_name file))
        ∧ length (ml_body (lines_of txt)) = length (lines_of txt)
        ∧ (∀ i line, lines_of txt !! i = Some line →
             ml_body (lines_of txt) !! i
             = Some ("  put '" +:+ escape (rstrip line) +:+ " ';" +:+ nl))
        ∧ (∀ i line, lines_of txt !! i = Some line →
             rstrip line = chomp line →
             ml_body (lines_of txt) !! i = Some (verbatim_stmt line)).
Proof.
  intros Hfile Hlua.
  destruct (embed_file_run w file txt Hfile (lua_file_not_macro file Hlua))
    as (w' & Hrun & Hf & _).
  exists w'. split; [done|]. split; [by rewrite Hf, lookup_insert_eq|].
  unfold ml_body. split; [by rewrite length_map|]. split.
  - intros i line Hi. by rewrite list_lookup_fmap, Hi.
  - intros i line Hi Hclean. rewrite list_lookup_fmap, Hi. simpl.
    unfold put_stmt, verbatim_stmt. by rewrite Hclean.
Qed.

Lemma embed_one_put_per_line_witness :
  ∃ w', embed_file "lua/example.lua" scenario_a_world = (Ok 0, w')
        ∧ files w' !! "lua/ml_example.sas"
          = Some (ml_prologue "ml_example" "example.lua"
                  +:+ join [ "  put 'print(" +:+ dquote +:+ "hi" +:+ dquote +:+ ") ';" +:+ nl;
                             "  put 'return 1 ';" +:+ nl ]
                  +:+ ml_epilogue "ml_example").
Proof.
  destruct (embed_one_put_per_line scenario_a_world "lua/example.lua" scenario_a_text)
    as (w' & Hrun & Hf & _); [reflexivity|reflexivity|].
  exists w'. split; [exact Hrun|exact Hf].
Defined.

(** C3 fails as stated: the white space that ends a line is not
    reproduced. *)
Lemma embed_drops_trailing_space :
  put_stmt ("a  " +:+ nl) ≠ verbatim_stmt ("a  " +:+ nl)
  ∧ put_stmt ("a  " +:+ nl) = put_stmt ("a" +:+ nl).
Proof. split; [vm_compute; discriminate|reflexivity]. Qed.

(** C4. Escaping a line doubles every single quote and changes nothing
    else: the escaped line is the line with each quote written twice, so
    it has twice as many quotes, the same other characters in the same
    order (white space at either end included), the empty line stays
    empty, and [it's] becomes [it''s]. *)
Theorem escape_doubles_every_quote (L : string) :
  escape L = double_quotes L
  ∧ count_char "'" (escape L) = 2 * count_char "'" L
  ∧ without_char "'" (escape L) = without_char "'" L
  ∧ escape "" = ""
  ∧ escape "it's" = "it''s".
Proof.
  assert (He : ∀ s, escape s = double_quotes s).
  { induction s as [|c s IH]; [done|]. rewrite escape_cons, IH. done. }
  split; [apply He|]. rewrite He. split; [|split; [|done]].
  - induction L as [|c L IH]; [done|]. simpl.
    destruct (Ascii.eqb c "'") eqn:Hc; simpl; rewrite ?Hc, IH; lia.
  - induction L as [|c L IH]; [done|]. simpl.
    destruct (Ascii.eqb c "'") eqn:Hc; simpl; rewrite ?Hc, IH; done.
Qed.

(** C5 (as the code has it). When the target has a begin line with no
    end line after it, the turn still completes without an error, and the
    target becomes what it would be had it stopped at that begin line,
    followed by one begin line for every further begin line: all other
    lines after the begin line are lost. *)
Theorem splice_truncates_after_begin (w : world) (file t s0 s1 s2 : string)
    (pre post : list string) :
  files w !! "base/mp_jsonout.sas" = Some s0 →
  files w !! webout1_path file = Some s1 →
  files w !! "base/mf_getuser.sas" = Some s2 →
  files w !! file = Some t →
  lines_of t = pre ++ webout_begin :: post →
  webout_end ∉ post →
  ∃ w', splice_file file w = (Ok (), w')
        ∧ files w' !! file
          = Some (join (splice_lines 0 [lines_of s0; lines_of s1; lines_of s2]
                          (pre ++ [webout_begin])
                        ++ filter (λ l, l = webout_begin) post)).
Proof.
  intros H0 H1 H2 Ht Hlines Hpost.
  destruct (splice_file_run w file t s0 s1 s2 H0 H1 H2 Ht) as (w' & Hrun & Hf & _).
  exists w'. split; [done|]. rewrite Hf, lookup_insert_eq. unfold spliced.
  simpl map. by rewrite Hlines, splice_lines_truncate.
Qed.

Lemma splice_truncates_after_begin_witness :
  ∃ w', splice_file "viya/mv_createwebservice.sas"
          (initial (web_fs ("head" +:+ nl +:+ webout_begin +:+ "tail" +:+ nl
                            +:+ "more" +:+ nl)
                           (comment_close +:+ "body" +:+ nl) "" ""))
        = (Ok (), w')
        ∧ files w' !! "viya/mv_createwebservice.sas"
          = Some ("head" +:+ nl +:+ webout_begin +:+ put_stmt ("body" +:+ nl)).
Proof.
  destruct (splice_truncates_after_begin
              (initial (web_fs ("head" +:+ nl +:+ webout_begin +:+ "tail" +:+ nl
                                +:+ "more" +:+ nl)
                               (comment_close +:+ "body" +:+ nl) "" ""))
              "viya/mv_createwebservice.sas"
              ("head" +:+ nl +:+ webout_begin +:+ "tail" +:+ nl +:+ "more" +:+ nl)
              (comment_close +:+ "body" +:+ nl) "" ""
              ["head" +:+ nl] ["tail" +:+ nl; "more" +:+ nl])
    as (w' & Hrun & Hf); try reflexivity.
  - rewrite !not_elem_of_cons. repeat split; try discriminate. apply not_elem_of_nil.
  - exists w'. split; [exact Hrun|exact Hf].
Defined.

(** C5 fails as stated: a second begin line after the first is written
    again, not lost. *)
Lemma splice_keeps_later_begin :
  spliced (webout_begin +:+ "x" +:+ nl +:+ webout_begin +:+ "y" +:+ nl) [""; ""; ""]
  = webout_begin +:+ webout_begin
  ∧ spliced (webout_begin +:+ "x" +:+ nl +:+ webout_begin +:+ "y" +:+ nl) [""; ""; ""]
    ≠ spliced webout_begin [""; ""; ""].
Proof. split; [reflexivity|vm_compute; discriminate]. Qed.

(** C6 (as the code has it). When the target has no begin line, the turn
    writes every line back with the white space at its end removed and
    one newline added; the target is unchanged exactly when each of its
    lines already has that form. *)
Theorem splice_copies_trimmed (w : world) (file t s0 s1 s2 : string) :
  files w !! "base/mp_jsonout.sas" = Some s0 →
  files w !! webout1_path file = Some s1 →
  files w !! "base/mf_getuser.sas" = Some s2 →
  files w !! file = Some t →
  webout_begin ∉ lines_of t →
  ∃ w', splice_file file w = (Ok (), w')
        ∧ files w' !! file = Some (join (map (λ l, rstrip l +:+ nl) (lines_of t)))
        ∧ (Forall (λ l, rstrip l +:+ nl = l) (lines_of t) ↔ files w' !! file = Some t).
Proof.
  intros H0 H1 H2 Ht Hno.
  destruct (splice_file_run w file t s0 s1 s2 H0 H1 H2 Ht) as (w' & Hrun & Hf & _).
  exists w'. split; [done|]. rewrite Hf, lookup_insert_eq. unfold spliced.
  rewrite splice_lines_copy by done. split; [done|]. split.
  - intros Hall. f_equal. rewrite <- (join_lines_of t) at 2. f_equal.
    rewrite <- (map_id (lines_of t)) at 2. apply map_ext_Forall, Hall.
  - intros Heq. injection Heq as Heq. by apply trimmed_join_fixed.
Qed.

Lemma splice_copies_trimmed_witness :
  ∃ w', splice_file "viya/mv_createwebservice.sas"
          (initial (web_fs ("a" +:+ nl +:+ "  b" +:+ nl) "" "" ""))
        = (Ok (), w')
        ∧ files w' !! "viya/mv_createwebservice.sas"
          = Some ("a" +:+ nl +:+ "  b" +:+ nl).
Proof.
  destruct (splice_copies_trimmed
              (initial (web_fs ("a" +:+ nl +:+ "  b" +:+ nl) "" "" ""))
              "viya/mv_createwebservice.sas" ("a" +:+ nl +:+ "  b" +:+ nl) "" "" "")
    as (w' & Hrun & Hf & _); try reflexivity.
  - change (lines_of ("a" +:+ nl +:+ "  b" +:+ nl)) with ["a" +:+ nl; "  b" +:+ nl].
    rewrite !not_elem_of_cons. repeat split; try discriminate. apply not_elem_of_nil.
  - exists w'. split; [exact Hrun|exact Hf].
Defined.

(** C6 fails as stated: a target without a begin line, but with blanks
    at the end of a line or no newline at its end, is not written back
    as it was. *)
Lemma splice_copy_not_identity :
  (webout_begin ∉ lines_of ("a  " +:+ nl +:+ "b"))
  ∧ files (snd (splice_file "viya/mv_createwebservice.sas"
                  (initial (web_fs ("a  " +:+ nl +:+ "b") "" "" ""))))
      !! "viya/mv_createwebservice.sas"
    = Some ("a" +:+ nl +:+ "b" +:+ nl)
  ∧ files (snd (splice_file "viya/mv_createwebservice.sas"
                  (initial (web_fs ("a  " +:+ nl +:+ "b") "" "" ""))))
      !! "viya/mv_createwebservice.sas"
    ≠ Some ("a  " +:+ nl +:+ "b").
Proof.
  split; [|split].
  - change (lines_of ("a  " +:+ nl +:+ "b")) with ["a  " +:+ nl; "b"].
    rewrite !not_elem_of_cons. repeat split; try discriminate. apply not_elem_of_nil.
  - by vm_compute.
  - vm_compute. discriminate.
Qed.

(** C7 (as the code has it). Whatever order the operating system lists
    the folders in, the stage completes and [all.sas] is the header
    followed, for the folders base, meta, metax, viya, lua in this order,
    by the text of [mc_<folder>.sas]; that text is the texts of the
    members of the folder (its [*.sas] files), each as text mode reads
    it, one after the other, in sorted order of their paths, which is the
    order of their file names.  Two listings of the same tree thus give
    the same [all.sas]. *)
Theorem all_sas_sorted_concatenation
    (os1 os2 : gmap string string → string → list string) (w : world) :
  valid_listing os1 → valid_listing os2 →
  ∃ w1 w2,
    concat_stage os1 w = (Ok (), w1)
    ∧ concat_stage os2 w = (Ok (), w2)
    ∧ files w1 !! "all.sas" = files w2 !! "all.sas"
    ∧ files w1 !! "all.sas"
      = Some (header +:+ join (map (λ d, category_text (files w)
                                           (plain_listing (files w) d))
                                   ["base"; "meta"; "metax"; "viya"; "lua"]))
    ∧ (∀ d, d ∈ folders →
         files w1 !! ("mc_" +:+ d +:+ ".sas")
         = Some (join (map (λ p, default "" (files w !! p))
                           (members (plain_listing (files w) d))))
         ∧ members (os1 (files w) d) = members (plain_listing (files w) d)
         ∧ Sorted String.le (members (plain_listing (files w) d))
         ∧ (∀ p q, p ∈ members (plain_listing (files w) d) →
                   q ∈ members (plain_listing (files w) d) →
                   String.le p q ↔ String.le (basename p) (basename q))
         ∧ ∀ x, x ∈ members (plain_listing (files w) d)
                ↔ match_ext ".sas" x = true ∧ is_Some (files w !! x) ∧ dirname x = d).
Proof.
  intros Hos1 Hos2.
  destruct (concat_stage_run os1 Hos1 w) as (w1 & Hrun1 & Hall1 & Hmc1).
  destruct (concat_stage_run os2 Hos2 w) as (w2 & Hrun2 & Hall2 & _).
  exists w1, w2. split; [done|]. split; [done|]. split; [congruence|].
  split; [done|]. intros d Hd. split; [by apply Hmc1|]. split; [|split; [|split]].
  - apply members_perm, NoDup_Permutation; [apply Hos1|apply plain_listing_valid|].
    intros x. by rewrite (proj2 (Hos1 (files w) d) x),
                         (proj2 (plain_listing_valid (files w) d) x).
  - apply Sorted_merge_sort. apply _.
  - intros p q Hp Hq.
    apply elem_of_members in Hp as [_ Hp], Hq as [_ Hq].
    apply (proj2 (plain_listing_valid (files w) d)) in Hp as [_ Hp], Hq as [_ Hq].
    apply le_same_folder; [congruence|]. rewrite Hp. intros ->.
    by apply empty_not_folder in Hd.
  - intros x. rewrite elem_of_members.
    by rewrite (proj2 (plain_listing_valid (files w) d) x).
Qed.

(** Scenario D, with the folders of the script: [base] holds [a.sas]
    and [b.sas], [meta] holds [c.sas]. *)
Lemma all_sas_sorted_concatenation_witness :
  ∃ w1 w2,
    concat_stage plain_listing (initial scenario_d_fs) = (Ok (), w1)
    ∧ concat_stage (λ fs d, reverse (plain_listing fs d)) (initial scenario_d_fs)
      = (Ok (), w2)
    ∧ files w1 !! "all.sas" = files w2 !! "all.sas"
    ∧ files w1 !! "all.sas" = Some (header +:+ "A" +:+ "B" +:+ "C").
Proof.
  destruct (all_sas_sorted_concatenation plain_listing
              (λ fs d, reverse (plain_listing fs d)) (initial scenario_d_fs))
    as (w1 & w2 & Hrun1 & Hrun2 & Heq & Hall & _).
  - apply plain_listing_valid.
  - intros fs d. split.
    + rewrite reverse_Permutation. apply plain_listing_valid.
    + intros x. rewrite elem_of_reverse. apply plain_listing_valid.
  - exists w1, w2. split; [exact Hrun1|]. split; [exact Hrun2|].
    split; [exact Heq|]. rewrite Hall. reflexivity.
Defined.

(** C7 fails as stated: the members are read and written as text, so a
    category artifact is not their bytes one after the other.  With one
    member whose line ends in a carriage return and a newline and one
    whose line ends in a carriage return alone, the artifact has one
    newline for each; written out with either line separator, a newline
    or a carriage return and a newline, it differs from the bytes of the
    members. *)
Lemma concatenation_not_byte_for_byte :
  ∃ w', concat_stage plain_listing (initial (read_as_text cr_disk)) = (Ok (), w')
        ∧ files w' !! "mc_base.sas" = Some ("A" +:+ nl +:+ "B" +:+ nl)
        ∧ raw_concatenation cr_disk "base" = "A" +:+ cr +:+ nl +:+ "B" +:+ cr
        ∧ platform_newlines nl ("A" +:+ nl +:+ "B" +:+ nl)
          ≠ raw_concatenation cr_disk "base"
        ∧ platform_newlines (cr +:+ nl) ("A" +:+ nl +:+ "B" +:+ nl)
          ≠ raw_concatenation cr_disk "base".
Proof.
  eexists. split; [by vm_compute|]. split; [by vm_compute|].
  split; [by vm_compute|]. split; vm_compute; discriminate.
Qed.

(** C8. Two runs of a turn of the web stage, in two worlds that hold the
    same target text and the same three source texts, both complete and
    leave the same text in the target, whatever else the two worlds
    hold. *)
Theorem splice_same_input_same_output (w1 w2 : world) (file t s0 s1 s2 : string) :
  files w1 !! "base/mp_jsonout.sas" = Some s0 →
  files w2 !! "base/mp_jsonout.sas" = Some s0 →
  files w1 !! webout1_path file = Some s1 →
  files w2 !! webout1_path file = Some s1 →
  files w1 !! "base/mf_getuser.sas" = Some s2 →
  files w2 !! "base/mf_getuser.sas" = Some s2 →
  files w1 !! file = Some t →
  files w2 !! file = Some t →
  ∃ w1' w2', splice_file file w1 = (Ok (), w1')
             ∧ splice_file file w2 = (Ok (), w2')
             ∧ files w1' !! file = files w2' !! file
             ∧ files w1' !! file = Some (spliced t [s0; s1; s2]).
Proof.
  intros H01 H02 H11 H12 H21 H22 Ht1 Ht2.
  destruct (splice_file_run w1 file t s0 s1 s2) as (w1' & Hrun1 & Hf1 & _); [done..|].
  destruct (splice_file_run w2 file t s0 s1 s2) as (w2' & Hrun2 & Hf2 & _); [done..|].
  exists w1', w2'. rewrite Hf1, Hf2, !lookup_insert_eq. done.
Qed.

Lemma splice_same_input_same_output_witness :
  ∃ w1' w2',
    splice_file "viya/mv_createwebservice.sas"
      (initial (web_fs (webout_begin +:+ "old" +:+ nl +:+ webout_end)
                       (comment_close +:+ "it's" +:+ nl) "" "")) = (Ok (), w1')
    ∧ splice_file "viya/mv_createwebservice.sas"
        (World (<["other.txt" := "x"]>
                  (web_fs (webout_begin +:+ "old" +:+ nl +:+ webout_end)
                          (comment_close +:+ "it's" +:+ nl) "" ""))
               ∅ 7 [EvOpen 3 "other.txt"]) = (Ok (), w2')
    ∧ files w1' !! "viya/mv_createwebservice.sas"
      = files w2' !! "viya/mv_createwebservice.sas".
Proof.
  destruct (splice_same_input_same_output
              (initial (web_fs (webout_begin +:+ "old" +:+ nl +:+ webout_end)
                               (comment_close +:+ "it's" +:+ nl) "" ""))
              (World (<["other.txt" := "x"]>
                        (web_fs (webout_begin +:+ "old" +:+ nl +:+ webout_end)
                                (comment_close +:+ "it's" +:+ nl) "" ""))
                     ∅ 7 [EvOpen 3 "other.txt"])
              "viya/mv_createwebservice.sas"
              (webout_begin +:+ "old" +:+ nl +:+ webout_end)
              (comment_close +:+ "it's" +:+ nl) "" "")
    as (w1' & w2' & Hrun1 & Hrun2 & Heq & _); try reflexivity.
  exists w1', w2'. split; [exact Hrun1|]. split; [exact Hrun2|exact Heq].
Defined.

(** C9 does not hold of the code.  On a tree with two Lua files the
    Lua stage opens the second macro file while the first is still open
    and ends with the first never closed; the web stage then leaves the
    handle of [base/mf_getuser.sas] open once per target. *)
Theorem handles_left_open :
  ∃ w1 w2,
    lua_stage plain_listing (initial library_fs) = (Ok (), w1)
    ∧ web_stage w1 = (Ok (), w2)
    ∧ open_at_opens (trace w1) []
      = [(0, []); (1, [0]); (2, [0]); (3, [0; 2])]
    ∧ still_open w1 = [0]
    ∧ still_open w2 = [0; 6; 11].
Proof.
  eexists _, _. split; [by vm_compute|]. split; [by vm_compute|].
  split; [|split]; by vm_compute.
Qed.

(** C10. When the listing of [lua] has no [*.lua] file, the Lua stage
    ends in the error of the unbound name [ml], raised by [ml.close()];
    the run ends there, with no file written and no file opened. *)
Theorem no_lua_file_unbound_ml
    (os : gmap string string → string → list string) (w : world) :
  filter (λ f, match_ext ".lua" f = true) (os (files w) "lua") = [] →
  lua_stage os w = (Raise (NameError "ml"), w)
  ∧ build os w = (Raise (NameError "ml"), w).
Proof.
  intros Hnone.
  assert (Hlua : lua_stage os w = (Raise (NameError "ml"), w)).
  { unfold lua_stage. erewrite bind_run by reflexivity. rewrite Hnone. done. }
  split; [done|]. unfold build. by erewrite bind_raise by apply Hlua.
Qed.

Lemma no_lua_file_unbound_ml_witness :
  build plain_listing (initial {[ "lua/readme.txt" := "no scripts here" ]})
  = (Raise (NameError "ml"), initial {[ "lua/readme.txt" := "no scripts here" ]}).
Proof.
  apply (no_lua_file_unbound_ml plain_listing
           (initial {[ "lua/readme.txt" := "no scripts here" ]})).
  reflexivity.
Defined.

(** * Further properties of the script *)

(** ** More on the loop over the target *)

Lemma splice_state_copy srcs lines :
  webout_begin ∉ lines → splice_state 0 srcs lines = (0, srcs).
Proof.
  induction lines as [|x lines IH]; [done|]. intros Hnot.
  apply not_elem_of_cons in Hnot as [Hx Hlines]. simpl.
  destruct (String.eqb_spec x webout_begin); [congruence|]. by apply IH.
Qed.

Lemma splice_state_suppress srcs lines :
  is_drained srcs → webout_end ∉ lines → splice_state 1 srcs lines = (1, srcs).
Proof.
  intros Hd. induction lines as [|x lines IH]; [done|]. intros Hnot.
  apply not_elem_of_cons in Hnot as [Hx Hlines]. simpl.
  destruct (String.eqb_spec x webout_begin).
  - rewrite drained_id by done. by apply IH.
  - destruct (String.eqb_spec x webout_end); [congruence|]. by apply IH.
Qed.

(** A target with a begin line and, after it, an end line. *)
Lemma splice_lines_region srcs pre mid post :
  webout_begin ∉ pre → webout_end ∉ mid →
  splice_lines 0 srcs (pre ++ webout_begin :: mid ++ webout_end :: post)
  = map (λ l, rstrip l +:+ nl) pre
    ++ webout_begin :: webout_block srcs
    ++ filter (λ l, l = webout_begin) mid
    ++ webout_end :: splice_lines 0 (drained srcs) post.
Proof.
  intros Hpre Hmid.
  rewrite splice_lines_app, splice_state_copy, splice_lines_copy by done.
  f_equal. simpl. f_equal. f_equal.
  rewrite splice_lines_app, splice_state_suppress, splice_lines_suppress
    by (done || apply drained_is_drained).
  f_equal.
Qed.

Lemma filter_begin_none mid :
  webout_begin ∉ mid → filter (λ l, l = webout_begin) mid = [].
Proof.
  induction mid as [|x mid IH]; [done|]. intros Hnot.
  apply not_elem_of_cons in Hnot as [Hx Hmid].
  rewrite filter_cons_False by done. by apply IH.
Qed.

(** ** Splicing what was spliced *)

Lemma put_stmt_not_marker x :
  put_stmt x ≠ webout_begin ∧ put_stmt x ≠ webout_end.
Proof. split; discriminate. Qed.

Lemma webout_block_not_marker srcs :
  Forall (λ l, l ≠ webout_begin ∧ l ≠ webout_end) (webout_block srcs).
Proof.
  unfold webout_block. apply Forall_forall. intros l Hl.
  apply list_elem_of_In, in_flat_map in Hl as (ws & _ & Hl).
  apply in_map_iff in Hl as (x & <- & _). apply put_stmt_not_marker.
Qed.

(** While suppressing, lines that are no markers change nothing. *)
Lemma splice_skip ls srcs rest :
  Forall (λ l, l ≠ webout_begin ∧ l ≠ webout_end) ls →
  splice_lines 1 srcs (ls ++ rest) = splice_lines 1 srcs rest
  ∧ splice_state 1 srcs (ls ++ rest) = splice_state 1 srcs rest.
Proof.
  induction 1 as [|l ls [Hb He] _ IH]; [done|]. simpl.
  destruct (String.eqb_spec l webout_begin); [done|].
  destruct (String.eqb_spec l webout_end); [done|]. done.
Qed.

Lemma rstrip_idemp s : rstrip (rstrip s) = rstrip s.
Proof.
  induction s as [|c s IH]; [done|]. simpl.
  destruct (rstrip s) as [|a r] eqn:Hr.
  - destruct (isspace c) eqn:Hc; [done|]. simpl. by rewrite Hc.
  - simpl in *. rewrite IH. done.
Qed.

Lemma copy_line_idemp l : copy_line (copy_line l) = copy_line l.
Proof.
  unfold copy_line. by rewrite rstrip_blank_suffix, rstrip_idemp.
Qed.

(** Running the loop over its own output, from the same state, writes
    the same lines and ends in the same state. *)
Lemma splice_lines_idemp lines delrow srcs :
  delrow = 0 ∨ delrow = 1 →
  no_fake_begin lines →
  splice_lines delrow srcs (splice_lines delrow srcs lines)
  = splice_lines delrow srcs lines
  ∧ splice_state delrow srcs (splice_lines delrow srcs lines)
    = splice_state delrow srcs lines.
Proof.
  revert delrow srcs. induction lines as [|l lines IH]; intros delrow srcs Hd Hfake;
    [done|].
  apply Forall_cons in Hfake as [Hl Hfake]. simpl.
  destruct (String.eqb_spec l webout_begin) as [->|Hb].
  { destruct (IH 1 (drained srcs)) as [IH1 IH2]; [by right|done|].
    destruct (splice_skip (webout_block srcs) (drained srcs)
                (splice_lines 1 (drained srcs) lines)) as [Hs1 Hs2];
      [apply webout_block_not_marker|].
    simpl. rewrite Hs1, Hs2, IH1, IH2. done. }
  destruct Hd as [-> | ->]; simpl.
  - destruct (IH 0 srcs) as [IH1 IH2]; [by left|done|].
    fold (copy_line l).
    destruct (String.eqb_spec (copy_line l) webout_begin) as [Hc|Hc]; [by apply Hl in Hc|].
    fold (copy_line (copy_line l)). by rewrite copy_line_idemp, IH1, IH2.
  - destruct (String.eqb_spec l webout_end) as [->|He]; simpl.
    + destruct (IH 0 srcs) as [IH1 IH2]; [by left|done|]. by rewrite IH1, IH2.
    + apply IH; [by right|done].
Qed.

(** ** The spliced text, read back as lines *)

Lemma has_nl_app s t : has_nl (s +:+ t) = has_nl s || has_nl t.
Proof.
  induction s as [|c s IH]; [done|]. rewrite str_app_cons. simpl.
  by rewrite IH, orb_assoc.
Qed.

Lemma has_nl_escape s : has_nl (escape s) = has_nl s.
Proof.
  induction s as [|c s IH]; [done|]. rewrite escape_cons.
  destruct (Ascii.eqb_spec c "'") as [->|Hc]; simpl; by rewrite IH.
Qed.

Lemma whole_line_put l : line_ok l → whole_line (put_stmt l).
Proof.
  intros Hl. exists ("  put '" +:+ escape (rstrip l) +:+ " ';"). split.
  - rewrite !has_nl_app, has_nl_escape, Hl. done.
  - unfold put_stmt. by rewrite !str_app_assoc.
Qed.

Lemma whole_line_copy l : line_ok l → whole_line (copy_line l).
Proof. intros Hl. by exists (rstrip l). Qed.

Lemma whole_line_begin : whole_line webout_begin.
Proof. by exists "/* WEBOUT BEGIN */". Qed.

Lemma whole_line_end : whole_line webout_end.
Proof. by exists "/* WEBOUT END */". Qed.

Lemma lines_of_line_ok t : Forall line_ok (lines_of t).
Proof. apply Forall_forall. intros l Hl. by eapply has_nl_rstrip_line. Qed.

Lemma webout_lines_Forall (P : string → Prop) sc ws :
  Forall P ws → Forall P (webout_lines sc ws).
Proof.
  intros H. revert sc. induction H as [|w ws Hw _ IH]; intros sc; [constructor|].
  simpl. destruct (String.eqb w comment_close); [apply IH|].
  destruct (sc =? 0); [constructor; [done|apply IH]|apply IH].
Qed.

Lemma webout_block_whole srcs :
  Forall (Forall line_ok) srcs → Forall whole_line (webout_block srcs).
Proof.
  unfold webout_block. induction 1 as [|ws srcs Hws _ IH]; [constructor|].
  simpl. apply Forall_app. split; [|done].
  apply Forall_fmap. eapply Forall_impl; [by apply webout_lines_Forall|].
  intros l Hl. by apply whole_line_put.
Qed.

Lemma drained_line_ok srcs : Forall (Forall line_ok) (drained srcs).
Proof. unfold drained. apply Forall_fmap, Forall_true. intros ?. by apply Forall_nil. Qed.

Lemma splice_lines_whole lines delrow srcs :
  Forall line_ok lines → Forall (Forall line_ok) srcs →
  Forall whole_line (splice_lines delrow srcs lines).
Proof.
  intros Hlines. revert delrow srcs.
  induction Hlines as [|l lines Hl _ IH]; intros delrow srcs Hsrcs; [constructor|].
  simpl. destruct (String.eqb l webout_begin).
  { constructor; [apply whole_line_begin|]. apply Forall_app. split.
    - by apply webout_block_whole.
    - apply IH, drained_line_ok. }
  destruct ((delrow =? 1) && String.eqb l webout_end).
  { constructor; [apply whole_line_end|by apply IH]. }
  destruct (delrow =? 0); [|by apply IH].
  constructor; [by apply whole_line_copy|by apply IH].
Qed.

Lemma lines_of_spliced t sources :
  lines_of (spliced t sources)
  = splice_lines 0 (map lines_of sources) (lines_of t).
Proof.
  unfold spliced. apply lines_of_join, splice_lines_whole.
  - apply lines_of_line_ok.
  - apply Forall_fmap, Forall_true. intros s. apply lines_of_line_ok.
Qed.

(** Splicing a spliced text once more, with the same sources, gives
    the same text. *)
Lemma spliced_idemp t sources :
  no_fake_begin (lines_of t) →
  spliced (spliced t sources) sources = spliced t sources.
Proof.
  intros Hfake. unfold spliced at 1. rewrite lines_of_spliced.
  destruct (splice_lines_idemp (lines_of t) 0 (map lines_of sources))
    as [-> _]; [by left|done|]. done.
Qed.

(** ** Further properties of the web stage *)

Lemma sas_not_temp p file :
  last_char p = Some "s"%char → file +:+ "TEMP" ≠ p.
Proof.
  intros Hp <-. change "TEMP" with ("TEM" +:+ "P") in Hp.
  rewrite <- str_app_assoc, last_char_app in Hp. discriminate.
Qed.

Lemma webout1_path_last file : last_char (webout1_path file) = Some "s"%char.
Proof. unfold webout1_path. by destruct (String.eqb _ _). Qed.

(** X1. A target with one begin line and, after it, one end line gets
    the lines between them replaced in full: what comes before and after
    is copied line by line (trimmed on the right), the two marker lines
    stay, and between them stands one statement for every kept line of
    the three sources, in the order of the sources. *)
Theorem splice_replaces_region (w : world) (file t s0 s1 s2 : string)
    (pre mid post : list string) :
  files w !! "base/mp_jsonout.sas" = Some s0 →
  files w !! webout1_path file = Some s1 →
  files w !! "base/mf_getuser.sas" = Some s2 →
  files w !! file = Some t →
  lines_of t = pre ++ webout_begin :: mid ++ webout_end :: post →
  webout_begin ∉ pre → webout_begin ∉ mid → webout_end ∉ mid →
  webout_begin ∉ post →
  ∃ w', splice_file file w = (Ok (), w')
        ∧ files w' !! file
          = Some (join (map copy_line pre
                        ++ [webout_begin]
                        ++ map put_stmt (webout_lines 1 (lines_of s0)
                                         ++ webout_lines 1 (lines_of s1)
                                         ++ webout_lines 1 (lines_of s2))
                        ++ [webout_end]
                        ++ map copy_line post)).
Proof.
  intros H0 H1 H2 Ht Hlines Hpre Hmid Hmid' Hpost.
  destruct (splice_file_run w file t s0 s1 s2 H0 H1 H2 Ht) as (w' & Hrun & Hf & _).
  exists w'. split; [done|]. rewrite Hf, lookup_insert_eq. unfold spliced.
  simpl map. rewrite Hlines, splice_lines_region by done.
  rewrite filter_begin_none, splice_lines_copy by done.
  unfold webout_block, copy_line. simpl.
  by rewrite app_nil_r, !map_app, <- !(assoc_L (++)).
Qed.

Lemma splice_replaces_region_witness :
  ∃ w', splice_file "viya/mv_createwebservice.sas"
          (initial (web_fs ("%macro x;  " +:+ nl +:+ webout_begin +:+ "old" +:+ nl
                            +:+ webout_end +:+ "%mend;")
                           ("/**" +:+ nl +:+ comment_close +:+ "a" +:+ nl)
                           (comment_close +:+ "b" +:+ nl)
                           "no header"))
        = (Ok (), w')
        ∧ files w' !! "viya/mv_createwebservice.sas"
          = Some ("%macro x;" +:+ nl +:+ webout_begin
                  +:+ "  put 'a ';" +:+ nl +:+ "  put 'b ';" +:+ nl
                  +:+ webout_end +:+ "%mend;" +:+ nl).
Proof.
  destruct (splice_replaces_region
              (initial (web_fs ("%macro x;  " +:+ nl +:+ webout_begin +:+ "old" +:+ nl
                                +:+ webout_end +:+ "%mend;")
                               ("/**" +:+ nl +:+ comment_close +:+ "a" +:+ nl)
                               (comment_close +:+ "b" +:+ nl)
                               "no header"))
              "viya/mv_createwebservice.sas"
              ("%macro x;  " +:+ nl +:+ webout_begin +:+ "old" +:+ nl
               +:+ webout_end +:+ "%mend;")
              ("/**" +:+ nl +:+ comment_close +:+ "a" +:+ nl)
              (comment_close +:+ "b" +:+ nl)
              "no header"
              ["%macro x;  " +:+ nl] ["old" +:+ nl] ["%mend;"])
    as (w' & Hrun & Hf); try reflexivity;
    try (rewrite !not_elem_of_cons; repeat split; try discriminate;
         apply not_elem_of_nil).
  exists w'. split; [exact Hrun|exact Hf].
Defined.

(** X2. Running a turn of the web stage a second time changes nothing:
    when no line of the target merely looks like the begin line (would
    become it once trimmed) and the target is none of the sources, the
    second run completes and leaves the whole file system as the first
    run left it. *)
Theorem splice_twice_same (w : world) (file t s0 s1 s2 : string) :
  files w !! "base/mp_jsonout.sas" = Some s0 →
  files w !! webout1_path file = Some s1 →
  files w !! "base/mf_getuser.sas" = Some s2 →
  files w !! file = Some t →
  file ≠ "base/mp_jsonout.sas" → file ≠ webout1_path file →
  file ≠ "base/mf_getuser.sas" →
  no_fake_begin (lines_of t) →
  ∃ w1 w2, splice_file file w = (Ok (), w1)
           ∧ splice_file file w1 = (Ok (), w2)
           ∧ files w2 = files w1
           ∧ files w1 !! file = Some (spliced t [s0; s1; s2]).
Proof.
  intros H0 H1 H2 Ht Hn0 Hn1 Hn2 Hfake.
  destruct (splice_file_run w file t s0 s1 s2 H0 H1 H2 Ht) as (w1 & Hrun1 & Hf1 & _).
  destruct (splice_file_run w1 file (spliced t [s0; s1; s2]) s0 s1 s2)
    as (w2 & Hrun2 & Hf2 & _).
  { rewrite Hf1, lookup_insert_ne, lookup_delete_ne; [done| |done].
    by apply sas_not_temp. }
  { rewrite Hf1, lookup_insert_ne, lookup_delete_ne; [done| |done].
    apply sas_not_temp, webout1_path_last. }
  { rewrite Hf1, lookup_insert_ne, lookup_delete_ne; [done| |done].
    by apply sas_not_temp. }
  { rewrite Hf1. apply lookup_insert_eq. }
  exists w1, w2. split; [done|]. split; [done|]. split.
  - rewrite Hf2, spliced_idemp, Hf1 by done.
    rewrite delete_insert_ne by (intros H; by apply (temp_ne file)).
    by rewrite delete_delete_eq, insert_insert_eq.
  - rewrite Hf1. apply lookup_insert_eq.
Qed.

Lemma splice_twice_same_witness :
  ∃ w1 w2,
    splice_file "viya/mv_createwebservice.sas"
      (initial (web_fs ("top  " +:+ nl +:+ webout_begin +:+ "old" +:+ nl
                        +:+ webout_end +:+ "end")
                       (comment_close +:+ "it's" +:+ nl) "" comment_close))
    = (Ok (), w1)
    ∧ splice_file "viya/mv_createwebservice.sas" w1 = (Ok (), w2)
    ∧ files w2 = files w1.
Proof.
  destruct (splice_twice_same
              (initial (web_fs ("top  " +:+ nl +:+ webout_begin +:+ "old" +:+ nl
                                +:+ webout_end +:+ "end")
                               (comment_close +:+ "it's" +:+ nl) "" comment_close))
              "viya/mv_createwebservice.sas"
              ("top  " +:+ nl +:+ webout_begin +:+ "old" +:+ nl
               +:+ webout_end +:+ "end")
              (comment_close +:+ "it's" +:+ nl) "" comment_close)
    as (w1 & w2 & Hrun1 & Hrun2 & Heq & _).
  - reflexivity.
  - reflexivity.
  - reflexivity.
  - reflexivity.
  - discriminate.
  - discriminate.
  - discriminate.
  - change (lines_of _) with ["top  " +:+ nl; webout_begin; "old" +:+ nl;
                              webout_end; "end"].
    unfold no_fake_begin.
    repeat (apply Forall_cons_2; [vm_compute; first [discriminate|reflexivity]|]).
    apply Forall_nil_2.
  - exists w1, w2. split; [exact Hrun1|]. split; [exact Hrun2|exact Heq].
Defined.

(** X3. The web stage as a whole: when the two targets and the four
    sources exist, the stage completes; each target holds its spliced
    text, built from [base/mp_jsonout.sas], its own web-out file and
    [base/mf_getuser.sas]; no temporary file is left; every other file,
    the sources among them, is as it was. *)
Theorem web_stage_rewrites_targets (w : world) (tv tm s0 sv sm s2 : string) :
  files w !! "viya/mv_createwebservice.sas" = Some tv →
  files w !! "meta/mm_createwebservice.sas" = Some tm →
  files w !! "base/mp_jsonout.sas" = Some s0 →
  files w !! "viya/mv_webout.sas" = Some sv →
  files w !! "meta/mm_webout.sas" = Some sm →
  files w !! "base/mf_getuser.sas" = Some s2 →
  ∃ w', web_stage w = (Ok (), w')
        ∧ files w' !! "viya/mv_createwebservice.sas" = Some (spliced tv [s0; sv; s2])
        ∧ files w' !! "meta/mm_createwebservice.sas" = Some (spliced tm [s0; sm; s2])
        ∧ files w' !! "viya/mv_createwebservice.sasTEMP" = None
        ∧ files w' !! "meta/mm_createwebservice.sasTEMP" = None
        ∧ ∀ p, p ∉ [ "viya/mv_createwebservice.sas"; "meta/mm_createwebservice.sas";
                     "viya/mv_createwebservice.sasTEMP";
                     "meta/mm_createwebservice.sasTEMP" ] →
               files w' !! p = files w !! p.
Proof.
  intros Htv Htm H0 Hsv Hsm H2.
  destruct (splice_file_run w "viya/mv_createwebservice.sas" tv s0 sv s2)
    as (w1 & Hrun1 & Hf1 & _); [done..|].
  destruct (splice_file_run w1 "meta/mm_createwebservice.sas" tm s0 sm s2)
    as (w2 & Hrun2 & Hf2 & _);
    [rewrite Hf1; by rewrite lookup_insert_ne, lookup_delete_ne by done..|].
  exists w2. unfold web_stage, for_each, web_targets.
  rewrite foldM_cons, Hrun1, foldM_cons, Hrun2. split; [done|].
  rewrite Hf2, Hf1.
  change ("viya/mv_createwebservice.sas" +:+ "TEMP")
    with "viya/mv_createwebservice.sasTEMP".
  change ("meta/mm_createwebservice.sas" +:+ "TEMP")
    with "meta/mm_createwebservice.sasTEMP".
  split; [|split; [|split; [|split]]].
  - by rewrite lookup_insert_ne, lookup_delete_ne, lookup_insert_eq by done.
  - by rewrite lookup_insert_eq.
  - by rewrite lookup_insert_ne, lookup_delete_ne, lookup_insert_ne,
      lookup_delete_eq by done.
  - by rewrite lookup_insert_ne, lookup_delete_eq by done.
  - intros p Hp. rewrite !not_elem_of_cons in Hp.
    destruct Hp as (?&?&?&?&_).
    by rewrite lookup_insert_ne, lookup_delete_ne, lookup_insert_ne,
      lookup_delete_ne by done.
Qed.

Lemma web_stage_rewrites_targets_witness :
  ∃ w', web_stage (initial library_fs) = (Ok (), w')
        ∧ files w' !! "viya/mv_createwebservice.sas"
          = Some (webout_begin +:+ "  put '%macro mp_jsonout; ';" +:+ nl
                  +:+ "  put '%macro mv_webout; ';" +:+ nl
                  +:+ "  put '%macro mf_getuser; ';" +:+ nl +:+ webout_end)
        ∧ files w' !! "meta/mm_createwebservice.sas"
          = Some (webout_begin +:+ "  put '%macro mp_jsonout; ';" +:+ nl
                  +:+ "  put '%macro mm_webout; ';" +:+ nl
                  +:+ "  put '%macro mf_getuser; ';" +:+ nl +:+ webout_end).
Proof.
  destruct (web_stage_rewrites_targets (initial library_fs)
              (webout_begin +:+ webout_end) (webout_begin +:+ webout_end)
              (comment_close +:+ "%macro mp_jsonout;" +:+ nl)
              (comment_close +:+ "%macro mv_webout;" +:+ nl)
              (comment_close +:+ "%macro mm_webout;" +:+ nl)
              (comment_close +:+ "%macro mf_getuser;" +:+ nl))
    as (w' & Hrun & Hv & Hm & _).
  - reflexivity.
  - reflexivity.
  - reflexivity.
  - reflexivity.
  - reflexivity.
  - reflexivity.
  - exists w'. split; [exact Hrun|]. split; [exact Hv|exact Hm].
Defined.

Lemma splice_missing_source_run w file :
  files w !! "base/mp_jsonout.sas" = None →
  splice_file file w = (Raise (FileNotFoundError "base/mp_jsonout.sas"), w).
Proof.
  intros H. unfold splice_file. erewrite bind_raise; [done|].
  unfold open_. by rewrite H.
Qed.

(** X4. A missing first source stops the turn at once: the error names
    the file, and nothing was opened or written. *)
Theorem splice_missing_source (w : world) (file : string) :
  files w !! "base/mp_jsonout.sas" = None →
  splice_file file w = (Raise (FileNotFoundError "base/mp_jsonout.sas"), w).
Proof.
  intros H. unfold splice_file. erewrite bind_raise; [done|].
  unfold open_. by rewrite H.
Qed.

Lemma splice_missing_source_witness :
  splice_file "viya/mv_createwebservice.sas" (initial ∅)
  = (Raise (FileNotFoundError "base/mp_jsonout.sas"), initial ∅).
Proof.
  apply (splice_missing_source (initial ∅) "viya/mv_createwebservice.sas").
  reflexivity.
Defined.

(** X5. A missing target is noticed only after the temporary file was
    created: the turn ends in the error for the target, leaves an empty
    [<target>TEMP] behind, and the three source handles and the handle of
    the temporary file stay open. *)
Theorem splice_missing_target (w : world) (file s0 s1 s2 : string) :
  files w !! "base/mp_jsonout.sas" = Some s0 →
  files w !! webout1_path file = Some s1 →
  files w !! "base/mf_getuser.sas" = Some s2 →
  files w !! file = None →
  ∃ w', splice_file file w = (Raise (FileNotFoundError file), w')
        ∧ files w' = <[file +:+ "TEMP" := ""]> (files w)
        ∧ trace w' = trace w
                     ++ [ EvOpen (next_handle w) "base/mp_jsonout.sas";
                          EvOpen (S (next_handle w)) (webout1_path file);
                          EvOpen (S (S (next_handle w))) "base/mf_getuser.sas";
                          EvOpen (S (S (S (next_handle w)))) (file +:+ "TEMP") ].
Proof.
  intros H0 H1 H2 Ht. unfold splice_file.
  set (n := next_handle w).
  set (p1 := webout1_path file) in *.
  erewrite bind_run by (by apply open_r_run).
  erewrite bind_run; cycle 1.
  { instantiate (1 := World (files w)
      (<[S n := Handle p1 ModeR (lines_of s1) true]>
         (<[n := Handle "base/mp_jsonout.sas" ModeR (lines_of s0) true]> (handles w)))
      (S (S n))
      ((trace w ++ [EvOpen n "base/mp_jsonout.sas"]) ++ [EvOpen (S n) p1])).
    instantiate (1 := S n).
    subst p1. unfold webout1_path in *.
    destruct (String.eqb file "viya/mv_createwebservice.sas");
      by erewrite open_r_run by done. }
  erewrite bind_run by (by apply open_r_run).
  erewrite bind_run by reflexivity.
  erewrite bind_raise; cycle 1.
  { unfold open_. simpl. rewrite lookup_insert_ne by apply temp_ne.
    rewrite Ht. done. }
  eexists. split; [done|]. simpl. split; [done|].
  by rewrite <- !(assoc_L (++)).
Qed.

Lemma splice_missing_target_witness :
  ∃ w', splice_file "viya/mv_createwebservice.sas"
          (initial (delete "viya/mv_createwebservice.sas" (web_fs "" "a" "b" "c")))
        = (Raise (FileNotFoundError "viya/mv_createwebservice.sas"), w')
        ∧ files w' !! "viya/mv_createwebservice.sasTEMP" = Some ""
        ∧ still_open w' = [0; 1; 2; 3].
Proof.
  destruct (splice_missing_target
              (initial (delete "viya/mv_createwebservice.sas" (web_fs "" "a" "b" "c")))
              "viya/mv_createwebservice.sas" "a" "b" "c")
    as (w' & Hrun & Hf & Htr).
  - reflexivity.
  - reflexivity.
  - reflexivity.
  - reflexivity.
  - exists w'. split; [exact Hrun|]. split.
    + rewrite Hf. reflexivity.
    + unfold still_open. rewrite Htr. reflexivity.
Defined.

(** ** Further properties of the statements written *)

Lemma double_quotes_inj a b : double_quotes a = double_quotes b → a = b.
Proof.
  revert b. induction a as [|c a IH]; intros [|d b] H; simpl in H.
  - done.
  - by destruct (Ascii.eqb d "'").
  - by destruct (Ascii.eqb c "'").
  - destruct (Ascii.eqb_spec c "'") as [->|Hc], (Ascii.eqb_spec d "'") as [->|Hd].
    + injection H as H. f_equal. by apply IH.
    + injection H as <- H. done.
    + injection H as -> H. done.
    + injection H as -> H. f_equal. by apply IH.
Qed.

Lemma escape_double_quotes s : escape s = double_quotes s.
Proof. induction s as [|c s IH]; [done|]. by rewrite escape_cons, IH. Qed.

(** X6. Escaping loses nothing: two lines escape to the same text only
    if they are the same line; and two lines give the same [put]
    statement exactly when they agree up to the white space at their
    end. *)
Theorem put_stmt_keeps_line (a b : string) :
  (escape a = escape b ↔ a = b)
  ∧ (put_stmt a = put_stmt b ↔ rstrip a = rstrip b).
Proof.
  assert (Hinj : ∀ x y, escape x = escape y → x = y).
  { intros x y H. rewrite !escape_double_quotes in H.
    by apply double_quotes_inj. }
  split; split.
  - apply Hinj.
  - by intros ->.
  - unfold put_stmt. intros H. apply String.app_inj in H.
    apply str_app_inj_r in H. by apply Hinj.
  - unfold put_stmt. by intros ->.
Qed.

(** ** Further properties of the loops of the web stage *)

(** X7. What the loop over a source keeps, in full: the lines after the
    first close line, except those that are a close line themselves;
    their order is kept. *)
Theorem stripper_drops_later_close_lines (pre post : list string) :
  comment_close ∉ pre →
  webout_lines 1 (pre ++ comment_close :: post)
  = filter (λ x, x ≠ comment_close) post.
Proof.
  intros Hpre.
  by rewrite webout_lines_header, webout_lines_close, webout_lines_filter.
Qed.

Lemma stripper_drops_later_close_lines_witness :
  webout_lines 1 (["/**" +:+ nl] ++ comment_close
                  :: ["a" +:+ nl; comment_close; "b" +:+ nl])
  = ["a" +:+ nl; "b" +:+ nl].
Proof.
  rewrite (stripper_drops_later_close_lines ["/**" +:+ nl]
             ["a" +:+ nl; comment_close; "b" +:+ nl]).
  - reflexivity.
  - rewrite !not_elem_of_cons. repeat split; try discriminate. apply not_elem_of_nil.
Defined.

(** X8. The sources are read once per target: with two marker pairs in
    the target, the first region receives the statements and the second
    is left empty between its markers. *)
Theorem splice_second_region_empty (srcs : list (list string))
    (pre mid pre2 mid2 post : list string) :
  webout_begin ∉ pre → webout_begin ∉ mid → webout_end ∉ mid →
  webout_begin ∉ pre2 → webout_begin ∉ mid2 → webout_end ∉ mid2 →
  webout_begin ∉ post →
  splice_lines 0 srcs
    (pre ++ webout_begin :: mid ++ webout_end
         :: pre2 ++ webout_begin :: mid2 ++ webout_end :: post)
  = map copy_line pre
    ++ webout_begin :: webout_block srcs
    ++ webout_end
    :: map copy_line pre2
    ++ webout_begin :: webout_end :: map copy_line post.
Proof.
  intros Hpre Hmid Hmid' Hpre2 Hmid2 Hmid2' Hpost.
  rewrite splice_lines_region by done.
  rewrite splice_lines_region by done.
  rewrite !filter_begin_none by done.
  rewrite (webout_block_drained (drained srcs)) by apply drained_is_drained.
  rewrite splice_lines_copy by done. done.
Qed.

Lemma splice_second_region_empty_witness :
  splice_lines 0 [[comment_close; "x" +:+ nl]]
    (["a" +:+ nl] ++ webout_begin :: ["old" +:+ nl] ++ webout_end
       :: ["b" +:+ nl] ++ webout_begin :: ["old2" +:+ nl] ++ webout_end
       :: ["c" +:+ nl])
  = ["a" +:+ nl; webout_begin; put_stmt ("x" +:+ nl); webout_end;
     "b" +:+ nl; webout_begin; webout_end; "c" +:+ nl].
Proof.
  rewrite (splice_second_region_empty [[comment_close; "x" +:+ nl]]
             ["a" +:+ nl] ["old" +:+ nl] ["b" +:+ nl] ["old2" +:+ nl] ["c" +:+ nl]);
    try (rewrite !not_elem_of_cons; repeat split; try discriminate;
         apply not_elem_of_nil).
  reflexivity.
Defined.

(** ** The Lua stage as a whole *)

Lemma lua_file_not_sas file x :
  match_ext ".lua" file = true → file ≠ x +:+ ".sas".
Proof.
  unfold match_ext. intros H Heq.
  apply endswith_app in H as [pre Hpre].
  assert (Ha : last_char file = Some "a"%char).
  { apply last_char_basename. rewrite Hpre. by rewrite last_char_app. }
  rewrite Heq in Ha. by rewrite last_char_app in Ha.
Qed.

Lemma lua_file_not_ml_path file g :
  match_ext ".lua" file = true → file ≠ ml_path g.
Proof.
  intros H. unfold ml_path. rewrite <- str_app_assoc. by apply lua_file_not_sas.
Qed.

Lemma lua_files_from_frame fs acc fl p :
  (∀ f, f ∈ fl → p ≠ ml_path f) → lua_files_from fs acc fl !! p = acc !! p.
Proof.
  revert acc. induction fl as [|g fl IH]; intros acc Hp; [done|]. simpl.
  unfold lua_files_from in *. simpl.
  rewrite IH by (intros f Hf; apply Hp; by right).
  rewrite lookup_insert_ne; [done|]. intros Heq. by apply (Hp g); [left|].
Qed.

Lemma lua_files_from_lookup fs acc fl f :
  f ∈ fl → (∀ g, g ∈ fl → ml_path g = ml_path f → g = f) →
  lua_files_from fs acc fl !! ml_path f
  = Some (ml_text f (default "" (fs !! f))).
Proof.
  revert acc. induction fl as [|g fl IH]; intros acc Hin Huniq;
    [by apply elem_of_nil in Hin|].
  change (lua_files_from fs acc (g :: fl))
    with (lua_files_from fs (<[ml_path g := ml_text g (default "" (fs !! g))]> acc) fl).
  destruct (decide (f ∈ fl)) as [Hf|Hf].
  - apply IH; [done|]. intros g' Hg'. apply Huniq. by right.
  - apply elem_of_cons in Hin as [->|Hin]; [|done].
    rewrite lua_files_from_frame; [apply lookup_insert_eq|].
    intros f Hfin Heq. apply Hf. rewrite <- (Huniq f); [done|by right|done].
Qed.

(** The loop of the Lua stage. *)
Lemma lua_loop_run fl fs w ml0 :
  Forall (λ f, match_ext ".lua" f = true ∧ is_Some (fs !! f)) fl →
  (∀ f, match_ext ".lua" f = true → files w !! f = fs !! f) →
  ml_bound ml0 w →
  ∃ w' ml',
    foldM (λ _ file, h ← embed_file file; mret (Some h)) ml0 fl w = (Ok ml', w')
    ∧ ml_bound ml' w'
    ∧ (fl ≠ [] → ml' ≠ None)
    ∧ (fl = [] → ml' = ml0)
    ∧ files w' = lua_files_from fs (files w) fl.
Proof.
  intros Hfl. revert w ml0. induction Hfl as [|f fl [Hlua [txt Htxt]] _ IH];
    intros w ml0 Hsame Hml0.
  - exists w, ml0. repeat split; done.
  - destruct (embed_file_run w f txt) as (w1 & Hrun1 & Hf1 & Hn1 & Hh1 & Hs1).
    { by rewrite Hsame. }
    { by apply lua_file_not_macro. }
    destruct (IH w1 (Some (next_handle w))) as (w2 & ml2 & Hrun2 & Hml2 & Hne & He & Hf2).
    { intros g Hg. rewrite Hf1, lookup_insert_ne; [by apply Hsame|].
      intros Heq. by apply (lua_file_not_ml_path g f Hg). }
    { done. }
    exists w2, ml2. rewrite foldM_cons. erewrite bind_run by apply Hrun1.
    change (@mret M _ _ (Some (next_handle w)) w1)
      with (Ok (Some (next_handle w)), w1).
    cbv beta iota. rewrite Hrun2. split; [done|]. split; [done|].
    split; [|split; [done|]].
    + intros _. destruct fl as [|g fl']; [by rewrite He|by apply Hne].
    + rewrite Hf2, Hf1.
      change (lua_files_from fs (files w) (f :: fl))
        with (lua_files_from fs
                (<[ml_path f := ml_text f (default "" (fs !! f))]> (files w)) fl).
      by rewrite Htxt.
Qed.

Lemma distinct_macros_inj fl f g :
  distinct_macros fl → f ∈ fl → g ∈ fl → ml_path g = ml_path f → g = f.
Proof.
  unfold distinct_macros. induction fl as [|x fl IH]; intros Hd Hf Hg Heq;
    [by apply elem_of_nil in Hf|].
  rewrite fmap_cons in Hd. apply NoDup_cons in Hd as [Hx Hd].
  apply elem_of_cons in Hf as [->|Hf], Hg as [->|Hg]; [done| | |by apply IH].
  - destruct Hx. rewrite <- Heq. by apply list_elem_of_fmap_2.
  - destruct Hx. rewrite Heq. by apply list_elem_of_fmap_2.
Qed.

(** X9. With at least one [*.lua] file listed, and no two listed Lua
    files sharing a macro file, the Lua stage completes.  It leaves one
    macro file per Lua file, holding the fixed opening, one statement per
    line of the Lua file and the fixed ending; it changes no other file,
    and the Lua files themselves are as they were. *)
Theorem lua_stage_writes_macros
    (os : gmap string string → string → list string) (w : world) :
  valid_listing os →
  filter (λ f, match_ext ".lua" f = true) (os (files w) "lua") ≠ [] →
  distinct_macros (filter (λ f, match_ext ".lua" f = true) (os (files w) "lua")) →
  ∃ w', lua_stage os w = (Ok (), w')
        ∧ files w'
          = lua_files_after (files w)
              (filter (λ f, match_ext ".lua" f = true) (os (files w) "lua"))
        ∧ (∀ f txt, f ∈ os (files w) "lua" → match_ext ".lua" f = true →
             files w !! f = Some txt →
             files w' !! f = Some txt
             ∧ files w' !! ml_path f = Some (ml_text f txt))
        ∧ (∀ p, (∀ f, match_ext ".lua" f = true → p ≠ ml_path f) →
             files w' !! p = files w !! p).
Proof.
  intros Hos Hne Hdist. unfold lua_stage.
  erewrite bind_run by reflexivity.
  set (fl := filter _ _) in *.
  assert (Hfl : Forall (λ f, match_ext ".lua" f = true ∧ is_Some (files w !! f)) fl).
  { apply Forall_forall. intros f Hf. apply list_elem_of_filter in Hf as [Hm Hf].
    split; [done|]. by apply Hos in Hf as [Hs _]. }
  destruct (lua_loop_run fl (files w) w None Hfl) as (w1 & ml & Hrun & Hml & Hsome & _ & Hf);
    [done..|].
  erewrite bind_run by apply Hrun.
  destruct ml as [h|]; [|by destruct (Hsome Hne)].
  destruct (close_run h w1 Hml) as (w2 & Hclose & Hf2 & _).
  exists w2. split; [done|]. rewrite Hf2, Hf. split; [done|]. split.
  - intros f txt Hin Hm Hfile. split.
    + unfold lua_files_after. rewrite lua_files_from_frame; [done|].
      intros g _. by apply lua_file_not_ml_path.
    + rewrite lua_files_from_lookup, Hfile; [done| |].
      * apply list_elem_of_filter. done.
      * intros g Hg. apply (distinct_macros_inj fl); [done| |done].
        by apply list_elem_of_filter.
  - intros p Hp. unfold lua_files_after. rewrite lua_files_from_frame; [done|].
    intros f Hin. apply list_elem_of_filter in Hin as [Hm _]. by apply Hp.
Qed.

Lemma lua_stage_writes_macros_witness :
  ∃ w', lua_stage plain_listing (initial library_fs) = (Ok (), w')
        ∧ files w' !! "lua/ml_a.sas"
          = Some (ml_text "lua/a.lua" ("return 1" +:+ nl))
        ∧ files w' !! "lua/a.lua" = Some ("return 1" +:+ nl).
Proof.
  destruct (lua_stage_writes_macros plain_listing (initial library_fs))
    as (w' & Hrun & Hf & _).
  - apply plain_listing_valid.
  - vm_compute. discriminate.
  - apply (bool_decide_unpack _). vm_compute. exact I.
  - exists w'. split; [exact Hrun|]. rewrite Hf. split; reflexivity.
Defined.

(** ** The concatenation stage: what it leaves alone *)

Lemma concat_stage_frame os w :
  valid_listing os →
  ∃ w', concat_stage os w = (Ok (), w')
        ∧ ∀ p, p ≠ "all.sas" →
               (∀ d, d ∈ folders → p ≠ "mc_" +:+ d +:+ ".sas") →
               files w' !! p = files w !! p.
Proof.
  intros Hos. unfold concat_stage.
  erewrite bind_run by reflexivity.
  erewrite bind_run by (eapply write_run; simpl; apply lookup_insert_eq).
  rewrite str_app_nil_l.
  match goal with |- ∃ w', (_ ≫= _) ?W = _ ∧ _ => set (w1 := W) end.
  destruct (concat_folders_run os Hos folders (files w) w1 (next_handle w) header)
    as (w2 & Hrun & _ & _ & Hframe & _ & Hh).
  { by apply Forall_forall. }
  { unfold folders. repeat (apply NoDup_cons_2;
      [rewrite ?elem_of_cons, elem_of_nil; intros H;
       repeat (destruct H as [H|H]; [discriminate|]); done|]).
    apply NoDup_nil_2. }
  { apply lookup_insert_eq. }
  { simpl. lia. }
  { simpl. apply lookup_insert_eq. }
  { intros p Hp. simpl. rewrite !lookup_insert_ne; [done| |];
      intros <-; by apply empty_not_folder in Hp. }
  erewrite bind_run by apply Hrun.
  unfold close. rewrite Hh. eexists. split; [done|]. simpl.
  intros p Hp Hmc. rewrite Hframe by done. simpl.
  by rewrite !lookup_insert_ne.
Qed.

Lemma filter_none {A} (P : A → Prop) `{∀ x, Decision (P x)} (l : list A) :
  (∀ x, x ∈ l → ¬ P x) → filter P l = [].
Proof.
  induction l as [|x l IH]; [done|]. intros Hl.
  rewrite filter_cons_False by (apply Hl; by left).
  apply IH. intros y Hy. apply Hl. by right.
Qed.

(** X10. The concatenation stage writes [all.sas] and the five
    [mc_<folder>.sas] files and nothing else: every other file of the
    tree, each library member among them, is unchanged. *)
Theorem concat_stage_only_writes_aggregates
    (os : gmap string string → string → list string) (w : world) :
  valid_listing os →
  ∃ w', concat_stage os w = (Ok (), w')
        ∧ (∀ p, p ∉ [ "all.sas"; "mc_base.sas"; "mc_meta.sas"; "mc_metax.sas";
                      "mc_viya.sas"; "mc_lua.sas" ] →
                files w' !! p = files w !! p)
        ∧ (∀ p, dirname p ∈ folders → files w' !! p = files w !! p).
Proof.
  intros Hos. destruct (concat_stage_frame os w Hos) as (w' & Hrun & Hframe).
  exists w'. split; [done|].
  assert (Hout : ∀ p, p ∉ [ "all.sas"; "mc_base.sas"; "mc_meta.sas"; "mc_metax.sas";
                            "mc_viya.sas"; "mc_lua.sas" ] →
                      files w' !! p = files w !! p).
  { intros p Hp. rewrite !not_elem_of_cons in Hp.
    destruct Hp as (?&?&?&?&?&?&_). apply Hframe; [done|].
    intros d Hd. unfold folders in Hd. rewrite !elem_of_cons, elem_of_nil in Hd.
    destruct Hd as [->|[->|[->|[->|[->|[]]]]]]; done. }
  split; [done|]. intros p Hp. apply Hout.
  rewrite !not_elem_of_cons. repeat split; try apply not_elem_of_nil;
    intros ->; by apply empty_not_folder in Hp.
Qed.

Lemma concat_stage_only_writes_aggregates_witness :
  ∃ w', concat_stage plain_listing (initial scenario_d_fs) = (Ok (), w')
        ∧ files w' !! "base/a.sas" = Some "A"
        ∧ files w' !! "base/notes.txt" = Some "N".
Proof.
  destruct (concat_stage_only_writes_aggregates plain_listing (initial scenario_d_fs))
    as (w' & Hrun & _ & Hin).
  - apply plain_listing_valid.
  - exists w'. split; [exact Hrun|]. split.
    + rewrite (Hin "base/a.sas"); [reflexivity|].
      change (dirname "base/a.sas") with "base". apply list_elem_of_here.
    + rewrite (Hin "base/notes.txt"); [reflexivity|].
      change (dirname "base/notes.txt") with "base". apply list_elem_of_here.
Defined.

(** X11. A library without any [*.sas] file in its five folders gives an
    [all.sas] that is the header alone, and five empty
    [mc_<folder>.sas] files. *)
Theorem concat_stage_empty_library
    (os : gmap string string → string → list string) (w : world) :
  valid_listing os →
  (∀ p, is_Some (files w !! p) → dirname p ∈ folders → match_ext ".sas" p = false) →
  ∃ w', concat_stage os w = (Ok (), w')
        ∧ files w' !! "all.sas" = Some header
        ∧ ∀ d, d ∈ folders → files w' !! ("mc_" +:+ d +:+ ".sas") = Some "".
Proof.
  intros Hos Hnone.
  destruct (concat_stage_run os Hos w) as (w' & Hrun & Hall & Hmc).
  assert (Hcat : ∀ d, d ∈ folders →
            category_text (files w) (plain_listing (files w) d) = "").
  { intros d Hd. unfold category_text, members.
    rewrite filter_none; [done|]. intros x Hx Hm.
    apply plain_listing_valid in Hx as [Hs Hdir].
    rewrite Hnone in Hm; [done|done|by rewrite Hdir]. }
  exists w'. split; [done|]. split.
  - rewrite Hall. unfold library_text. f_equal.
    rewrite <- (str_app_nil_r header) at 2. f_equal.
    unfold folders in *. simpl.
    rewrite !Hcat; [done|..]; rewrite !elem_of_cons; tauto.
  - intros d Hd. by rewrite Hmc, Hcat.
Qed.

Lemma concat_stage_empty_library_witness :
  ∃ w', concat_stage plain_listing (initial {[ "lua/a.lua" := "return 1" ]})
        = (Ok (), w')
        ∧ files w' !! "all.sas" = Some header.
Proof.
  destruct (concat_stage_empty_library plain_listing
              (initial {[ "lua/a.lua" := "return 1" ]}))
    as (w' & Hrun & Hall & _).
  - apply plain_listing_valid.
  - intros p [txt Hp] _. simpl in Hp.
    apply lookup_singleton_Some in Hp as [<- _]. reflexivity.
  - exists w'. split; [exact Hrun|exact Hall].
Defined.

(** ** Handles of the concatenation stage *)

Lemma balanced_refl w : balanced w w.
Proof.
  split; [done|]. split; [done|]. exists []. split; [by rewrite app_nil_r|done].
Qed.

Lemma balanced_trans w1 w2 w3 : balanced w1 w2 → balanced w2 w3 → balanced w1 w3.
Proof.
  intros (Hn1 & Hk1 & evs1 & Ht1 & Ho1) (Hn2 & Hk2 & evs2 & Ht2 & Ho2).
  split; [lia|]. split; [auto|]. exists (evs1 ++ evs2). split.
  - by rewrite Ht2, Ht1, (assoc_L (++)).
  - intros acc Hacc. rewrite open_after_app, Ho1 by done. apply Ho2.
    eapply Forall_impl; [done|]. simpl. lia.
Qed.

Lemma write_balanced h s w : balanced w (write h s w).2.
Proof.
  unfold write. destruct (handles w !! h) as [[p [] r []]|]; simpl;
    try apply balanced_refl.
  split; [done|]. split; [done|]. exists []. split; [by rewrite app_nil_r|done].
Qed.

Lemma read_lines_balanced h w : balanced w (read_lines h w).2.
Proof.
  unfold read_lines. destruct (handles w !! h) as [[p [] r []]|] eqn:Hh; simpl;
    try apply balanced_refl.
  split; [done|]. split.
  - intros h' Hh'. simpl. rewrite lookup_insert. by case_decide.
  - exists []. split; [by rewrite app_nil_r|done].
Qed.

Lemma bind_balanced {A B} (m : M A) (k : A → M B) w :
  balanced w (m w).2 → (∀ a w1, balanced w1 (k a w1).2) →
  balanced w (bind m k w).2.
Proof.
  intros Hm Hk. unfold bind. destruct (m w) as [[a|e] w1]; simpl in *; [|done].
  eapply balanced_trans; [done|apply Hk].
Qed.

Lemma foldM_balanced {S A} (body : S → A → M S) xs s w :
  (∀ s x w, balanced w (body s x w).2) → balanced w (foldM body s xs w).2.
Proof.
  intros Hbody. revert s w. induction xs as [|x xs IH]; intros s w.
  - apply balanced_refl.
  - simpl. apply bind_balanced; [apply Hbody|]. intros a w1. apply IH.
Qed.

Lemma filter_fresh n acc :
  Forall (λ x, x < n) acc → filter (λ x, x ≠ n) (acc ++ [n]) = acc.
Proof.
  intros Hacc. rewrite filter_app, filter_cons_False, filter_nil, app_nil_r
    by (intros H; by apply H).
  induction Hacc as [|x acc Hx _ IH]; [done|].
  rewrite filter_cons_True by lia. by rewrite IH.
Qed.

(** A [with] block closes its file whatever its body does, as long as
    the body closes what it opens. *)
Lemma with_open_balanced {A} path md (body : nat → M A) w :
  (∀ h w1, balanced w1 (body h w1).2) →
  balanced w (with_open path md body w).2.
Proof.
  intros Hbody. unfold with_open.
  destruct (open_ path md w) as [[h|e] w1] eqn:Hopen; cycle 1.
  { assert (w1 = w) as ->; [|apply balanced_refl].
    unfold open_ in Hopen. destruct md; [|done].
    destruct (files w !! path); by inversion Hopen. }
  assert (Hw1 : h = next_handle w ∧ next_handle w1 = S h
                ∧ trace w1 = trace w ++ [EvOpen h path]
                ∧ is_Some (handles w1 !! h)
                ∧ ∀ h', is_Some (handles w !! h') → is_Some (handles w1 !! h')).
  { unfold open_ in Hopen. destruct md.
    - destruct (files w !! path); inversion Hopen; subst; simpl.
      repeat split; try done; [by rewrite lookup_insert_eq|].
      intros h' Hh'. rewrite lookup_insert. by case_decide.
    - inversion Hopen; subst; simpl.
      repeat split; try done; [by rewrite lookup_insert_eq|].
      intros h' Hh'. rewrite lookup_insert. by case_decide. }
  destruct Hw1 as (-> & Hn1 & Ht1 & Hh1 & Hk1).
  specialize (Hbody (next_handle w) w1).
  destruct (body (next_handle w) w1) as [r w2]. simpl in *.
  destruct Hbody as (Hn2 & Hk2 & evs & Ht2 & Ho2).
  unfold close. destruct (Hk2 _ Hh1) as [hd ->]. unfold balanced. simpl.
  split; [lia|]. split.
  - intros h' Hh'. rewrite lookup_insert. case_decide; [done|]. auto.
  - exists ([EvOpen (next_handle w) path] ++ evs ++ [EvClose (next_handle w)]).
    split; [by rewrite Ht2, Ht1, <- !(assoc_L (++))|].
    intros acc Hacc. rewrite !open_after_app. simpl.
    rewrite Ho2; [by apply filter_fresh|].
    rewrite Hn1. apply Forall_app. split.
    + eapply Forall_impl; [done|]. simpl. lia.
    + repeat constructor.
Qed.

Lemma concat_folder_balanced os f folder w :
  balanced w (concat_folder os f folder w).2.
Proof.
  unfold concat_folder. apply bind_balanced; [apply balanced_refl|].
  intros entries w1. apply bind_balanced.
  - apply with_open_balanced. intros outfile w2.
    apply foldM_balanced. intros _ fname w3.
    apply with_open_balanced. intros infile w4.
    apply bind_balanced.
    + unfold read. apply bind_balanced; [apply read_lines_balanced|].
      intros ls w5. apply balanced_refl.
    + intros txt w5. apply write_balanced.
  - intros _ w2. apply with_open_balanced. intros c w3.
    apply bind_balanced.
    + unfold read. apply bind_balanced; [apply read_lines_balanced|].
      intros ls w5. apply balanced_refl.
    + intros txt w5. apply write_balanced.
Qed.

(** X14. The concatenation stage closes every file it opens: in a world
    whose open handles are all older than the next handle, the handles
    open after the stage are those open before it. *)
Theorem concat_stage_closes_its_files
    (os : gmap string string → string → list string) (w : world) :
  valid_listing os →
  Forall (λ h, h < next_handle w) (still_open w) →
  ∃ w', concat_stage os w = (Ok (), w') ∧ still_open w' = still_open w.
Proof.
  intros Hos Hwf. destruct (concat_stage_run os Hos w) as (w' & Hrun & _).
  exists w'. split; [done|].
  unfold concat_stage in Hrun.
  erewrite bind_run in Hrun by reflexivity.
  erewrite bind_run in Hrun by (eapply write_run; simpl; apply lookup_insert_eq).
  match type of Hrun with (_ ≫= _) ?W = _ => set (w1 := W) in * end.
  pose proof (foldM_balanced (λ _ x, concat_folder os (next_handle w) x) folders () w1
                (λ _ x w0, concat_folder_balanced os (next_handle w) x w0)) as Hbal.
  unfold mbind, M_bind, bind, for_each in Hrun.
  destruct (foldM _ () folders w1) as [[[]|e] w2]; [|done]. simpl in Hbal.
  destruct Hbal as (Hn & Hk & evs & Ht & Ho).
  unfold close in Hrun.
  destruct (Hk (next_handle w)) as [hd Hhd]; [unfold w1; simpl; by rewrite lookup_insert_eq|].
  rewrite Hhd in Hrun. injection Hrun as <-.
  unfold still_open in *. simpl. rewrite Ht. unfold w1. simpl.
  rewrite !open_after_app. simpl.
  rewrite Ho; [by apply filter_fresh|].
  apply Forall_app. split.
  - eapply Forall_impl; [done|]. simpl. lia.
  - repeat constructor.
Qed.

Lemma concat_stage_closes_its_files_witness :
  ∃ w', concat_stage plain_listing (initial scenario_d_fs) = (Ok (), w')
        ∧ still_open w' = [].
Proof.
  destruct (concat_stage_closes_its_files plain_listing (initial scenario_d_fs))
    as (w' & Hrun & Hopen).
  - apply plain_listing_valid.
  - apply Forall_nil_2.
  - exists w'. split; [exact Hrun|exact Hopen].
Defined.

(** ** Names and paths of the macro files *)

Lemma has_slash_app s t : has_slash (s +:+ t) = has_slash s || has_slash t.
Proof.
  induction s as [|c s IH]; [done|]. rewrite str_app_cons. simpl.
  by rewrite IH, orb_assoc.
Qed.

Lemma basename_in_folder d x :
  has_slash x = false → basename (d +:+ "/" +:+ x) = x.
Proof.
  intros Hx. induction d as [|c d IH].
  - rewrite str_app_nil_l. change ("/" +:+ x) with (String "/" x).
    rewrite basename_cons. change (has_slash (String "/" x)) with true.
    cbv beta iota. by apply basename_no_slash.
  - rewrite str_app_cons, basename_cons.
    assert (Hs : has_slash (d +:+ "/" +:+ x) = true).
    { rewrite !has_slash_app. change (has_slash "/") with true.
      by destruct (has_slash d). }
    replace (has_slash (String c (d +:+ "/" +:+ x))) with true; [done|].
    simpl. by rewrite Hs, orb_true_r.
Qed.

Lemma dirname_in_folder d x :
  has_slash x = false → dirname (d +:+ "/" +:+ x) = d.
Proof.
  intros Hx. unfold dirname. rewrite basename_in_folder by done.
  rewrite !str_length_app. simpl.
  replace (String.length d + S (String.length x) - String.length x - 1)
    with (String.length d) by lia.
  induction d as [|c d IH]; [by destruct x|].
  rewrite str_app_cons. simpl. by rewrite IH.
Qed.

Lemma has_slash_basename p : has_slash (basename p) = false.
Proof.
  induction p as [|c p IH]; [done|]. rewrite basename_cons.
  destruct (has_slash (String c p)) eqn:H; done.
Qed.

Lemma has_slash_substring i s :
  has_slash s = false → has_slash (String.substring 0 i s) = false.
Proof.
  revert s. induction i as [|i IH]; intros [|c s] H; try done.
  simpl in *. apply orb_false_elim in H as [Hc Hs]. by rewrite Hc, IH.
Qed.

Lemma has_slash_splitext_root b :
  has_slash b = false → has_slash (splitext_root b) = false.
Proof.
  intros H. unfold splitext_root. destruct (last_dot b) as [i|]; [|done].
  destruct (all_dots _); [done|]. by apply has_slash_substring.
Qed.

Lemma has_slash_ml_name file : has_slash (ml_name file) = false.
Proof.
  unfold ml_name. rewrite has_slash_app. simpl.
  apply has_slash_splitext_root, has_slash_basename.
Qed.

Lemma substring_prefix s t : String.substring 0 (String.length s) (s +:+ t) = s.
Proof.
  induction s as [|c s IH]; [by destruct t|]. rewrite str_app_cons. simpl.
  by rewrite IH.
Qed.

Lemma substring_skip s t k :
  String.substring (String.length s) k (s +:+ t) = String.substring 0 k t.
Proof. induction s as [|c s IH]; [done|]. by rewrite str_app_cons. Qed.

Lemma endswith_suffix s suf : endswith suf (s +:+ suf) = true.
Proof.
  unfold endswith. rewrite str_length_app.
  replace (String.length s + String.length suf - String.length suf)
    with (String.length s) by lia.
  rewrite substring_skip, substring_all, String.eqb_refl.
  apply andb_true_intro. split; [apply Nat.leb_le; lia|done].
Qed.

Lemma last_dot_app s t i :
  last_dot t = Some i → last_dot (s +:+ t) = Some (String.length s + i).
Proof.
  intros Ht. induction s as [|c s IH]; [done|]. rewrite str_app_cons. simpl.
  by rewrite IH.
Qed.

(** X12. The macro of [lua/<stem>.lua] is named [ml_<stem>]: for a stem
    without slash that is not made of dots only, the Lua file matches
    [*.lua], its macro name is [ml_<stem>] and its macro file is
    [lua/ml_<stem>.sas]. *)
Theorem macro_name_of_stem (stem : string) :
  has_slash stem = false → all_dots stem = false →
  match_ext ".lua" ("lua/" +:+ stem +:+ ".lua") = true
  ∧ ml_name ("lua/" +:+ stem +:+ ".lua") = "ml_" +:+ stem
  ∧ ml_path ("lua/" +:+ stem +:+ ".lua") = "lua/ml_" +:+ stem +:+ ".sas".
Proof.
  intros Hs Hd.
  assert (Hb : basename ("lua/" +:+ stem +:+ ".lua") = stem +:+ ".lua").
  { apply (basename_in_folder "lua"). rewrite has_slash_app, Hs. done. }
  assert (Hn : ml_name ("lua/" +:+ stem +:+ ".lua") = "ml_" +:+ stem).
  { unfold ml_name. rewrite Hb. f_equal. unfold splitext_root.
    rewrite (last_dot_app stem ".lua" 0) by done.
    rewrite Nat.add_0_r, substring_prefix, Hd. done. }
  split; [|split; [done|]].
  - unfold match_ext. rewrite Hb. apply endswith_suffix.
  - unfold ml_path. rewrite Hn. done.
Qed.

Lemma macro_name_of_stem_witness :
  ml_name ("lua/" +:+ "json.min" +:+ ".lua") = "ml_json.min"
  ∧ ml_path ("lua/" +:+ "json.min" +:+ ".lua") = "lua/ml_json.min.sas".
Proof.
  destruct (macro_name_of_stem "json.min") as (_ & Hn & Hp).
  - reflexivity.
  - reflexivity.
  - split; [exact Hn|exact Hp].
Defined.

(** X13. Every macro file the Lua stage writes is a [*.sas] file of the
    folder [lua], so the concatenation stage takes it as a member of
    that folder; and it is no [*.lua] file, so the Lua stage never
    embeds its own output. *)
Theorem macro_file_is_lua_member (file : string) :
  dirname (ml_path file) = "lua"
  ∧ match_ext ".sas" (ml_path file) = true
  ∧ match_ext ".lua" (ml_path file) = false.
Proof.
  assert (Hs : has_slash (ml_name file +:+ ".sas") = false).
  { by rewrite has_slash_app, has_slash_ml_name. }
  assert (Hb : basename (ml_path file) = ml_name file +:+ ".sas").
  { by apply (basename_in_folder "lua"). }
  split; [by apply (dirname_in_folder "lua")|]. split.
  - unfold match_ext. rewrite Hb. apply endswith_suffix.
  - destruct (match_ext ".lua" (ml_path file)) eqn:Hm; [|done].
    by apply (lua_file_not_ml_path _ file) in Hm.
Qed.

(** ** Handles of the web stage and of the Lua stage *)

Lemma close_known h hd w :
  handles w !! h = Some hd →
  close h w
  = (Ok (), World (files w)
                  (<[h := Handle (h_path hd) (h_mode hd) (h_rest hd) false]> (handles w))
                  (next_handle w) (trace w ++ [EvClose h])).
Proof. intros H. unfold close. by rewrite H. Qed.

(** The handle table after one turn of the web stage. *)
Lemma splice_file_handles w file t s0 s1 s2 :
  files w !! "base/mp_jsonout.sas" = Some s0 →
  files w !! webout1_path file = Some s1 →
  files w !! "base/mf_getuser.sas" = Some s2 →
  files w !! file = Some t →
  ∃ w' r0 r1 r2,
    splice_file file w = (Ok (), w')
    ∧ handles w' !! next_handle w
      = Some (Handle "base/mp_jsonout.sas" ModeR r0 false)
    ∧ handles w' !! S (next_handle w)
      = Some (Handle (webout1_path file) ModeR r1 false)
    ∧ handles w' !! S (S (next_handle w))
      = Some (Handle "base/mf_getuser.sas" ModeR r2 true)
    ∧ handles w' !! S (S (S (next_handle w)))
      = Some (Handle (file +:+ "TEMP") ModeW [] false)
    ∧ handles w' !! S (S (S (S (next_handle w))))
      = Some (Handle file ModeR [] false)
    ∧ next_handle w' = S (S (S (S (S (next_handle w))))).
Proof.
  intros H0 H1 H2 Ht. unfold splice_file.
  pose proof (temp_ne file) as Htmp.
  set (n := next_handle w).
  unfold webout1_path in *.
  set (p1 := if String.eqb file "viya/mv_createwebservice.sas"
             then "viya/mv_webout.sas" else "meta/mm_webout.sas") in *.
  erewrite bind_run by (by apply open_r_run).
  erewrite bind_run; cycle 1.
  { instantiate (1 := World (files w)
      (<[S n := Handle p1 ModeR (lines_of s1) true]>
         (<[n := Handle "base/mp_jsonout.sas" ModeR (lines_of s0) true]> (handles w)))
      (S (S n))
      ((trace w ++ [EvOpen n "base/mp_jsonout.sas"]) ++ [EvOpen (S n) p1])).
    instantiate (1 := S n).
    subst p1. destruct (String.eqb file "viya/mv_createwebservice.sas");
      by erewrite open_r_run by done. }
  erewrite bind_run by (by apply open_r_run).
  erewrite bind_run by done.
  erewrite bind_run; cycle 1.
  { apply open_r_run. simpl. by rewrite lookup_insert_ne. }
  simpl next_handle. simpl files. simpl handles. simpl trace.
  set (wB := World (files w)
               (<[S (S (S (S n))) := Handle file ModeR [] true]> (handles w))
               (S (S (S (S (S n)))))
               (((((trace w ++ [EvOpen n "base/mp_jsonout.sas"]) ++ [EvOpen (S n) p1])
                   ++ [EvOpen (S (S n)) "base/mf_getuser.sas"])
                   ++ [EvOpen (S (S (S n))) (file +:+ "TEMP")])
                   ++ [EvOpen (S (S (S (S n)))) file])).
  assert (Hd : NoDup [S (S (S n)); n; S n; S (S n)]).
  { repeat (apply NoDup_cons_2; [rewrite ?elem_of_cons, elem_of_nil; lia|]).
    apply NoDup_nil_2. }
  destruct (splice_loop_run wB (file +:+ "TEMP") "base/mp_jsonout.sas" p1
              "base/mf_getuser.sas" _ _ _ _ Hd (lines_of t) 0 ""
              (lines_of s0) (lines_of s1) (lines_of s2))
    as (d & r0 & r1 & r2 & Hloop).
  erewrite bind_run; cycle 1.
  { unfold for_lines. unfold bind at 1. unfold read_lines. simpl.
    rewrite lookup_insert_eq. unfold set_handle. simpl.
    match goal with |- foldM _ _ _ ?W = _ =>
      replace W with (web_world wB (file +:+ "TEMP") "base/mp_jsonout.sas" p1
        "base/mf_getuser.sas" (S (S (S n))) n (S n) (S (S n)) ""
        (lines_of s0) (lines_of s1) (lines_of s2)) end.
    { apply Hloop. }
    unfold web_world, wB. simpl. f_equal.
    apply map_eq; intros i. rewrite !lookup_insert.
    repeat case_decide; try done; lia. }
  clear Hloop. rewrite str_app_nil_l.
  set (c := join _) in *.
  erewrite bind_run; cycle 1.
  { apply close_known. unfold web_world, wB. simpl.
    rewrite !lookup_insert. repeat case_decide; try lia. reflexivity. }
  erewrite bind_run; cycle 1.
  { apply close_known. unfold web_world, wB. simpl.
    rewrite !lookup_insert. repeat case_decide; try lia. reflexivity. }
  erewrite bind_run; cycle 1.
  { apply close_known. unfold web_world, wB. simpl.
    rewrite !lookup_insert. repeat case_decide; try lia. reflexivity. }
  erewrite bind_run; cycle 1.
  { apply close_known. unfold web_world, wB. simpl.
    rewrite !lookup_insert. repeat case_decide; try lia. reflexivity. }
  unfold mbind, M_bind, bind, remove, rename. simpl.
  rewrite lookup_insert_ne, Ht by done. simpl.
  rewrite lookup_delete_ne, lookup_insert_eq by done.
  eexists _, r0, r1, r2. split; [done|]. simpl.
  repeat split;
    repeat (first [rewrite lookup_insert_eq|rewrite lookup_insert_ne by lia]);
    reflexivity.
Qed.

(** X15. Of the five file objects a turn of the web stage opens, it
    closes four: both the record of its calls and the handle table say
    so.  The one it does not close is the third source,
    [base/mf_getuser.sas]: when the turn ends that file object is still
    open, the other four are closed. *)
Theorem web_turn_leaks_one_handle (w : world) (file t s0 s1 s2 : string) :
  files w !! "base/mp_jsonout.sas" = Some s0 →
  files w !! webout1_path file = Some s1 →
  files w !! "base/mf_getuser.sas" = Some s2 →
  files w !! file = Some t →
  ∃ w', splice_file file w = (Ok (), w')
        ∧ trace w' = trace w ++ turn_events (next_handle w) file
        ∧ (∃ r, handles w' !! S (S (next_handle w))
                = Some (Handle "base/mf_getuser.sas" ModeR r true))
        ∧ (∀ h, h ∈ [next_handle w; S (next_handle w);
                     S (S (S (next_handle w))); S (S (S (S (next_handle w))))] →
                ∃ hd, handles w' !! h = Some hd ∧ h_open hd = false)
        ∧ EvClose (S (S (next_handle w))) ∉ turn_events (next_handle w) file.
Proof.
  intros H0 H1 H2 Ht.
  destruct (splice_file_run w file t s0 s1 s2 H0 H1 H2 Ht) as (w' & Hrun & _ & Htr).
  destruct (splice_file_handles w file t s0 s1 s2 H0 H1 H2 Ht)
    as (w'' & r0 & r1 & r2 & Hrun' & Ha & Hb & Hc & Hd & He & _).
  assert (w'' = w') as -> by congruence.
  exists w'. split; [done|]. split; [done|]. split; [by exists r2|]. split.
  - intros h Hh. rewrite !elem_of_cons, elem_of_nil in Hh.
    destruct Hh as [->|[->|[->|[->|[]]]]]; eexists; (split; [eassumption|done]).
  - unfold turn_events. rewrite !not_elem_of_cons.
    repeat split; try discriminate; try (intros [= Heq]; lia).
    apply not_elem_of_nil.
Qed.

Lemma web_turn_leaks_one_handle_witness :
  ∃ w', splice_file "viya/mv_createwebservice.sas" (initial (web_fs "" "" "" ""))
        = (Ok (), w')
        ∧ (∃ r, handles w' !! 2 = Some (Handle "base/mf_getuser.sas" ModeR r true))
        ∧ trace w' = turn_events 0 "viya/mv_createwebservice.sas".
Proof.
  destruct (web_turn_leaks_one_handle (initial (web_fs "" "" "" ""))
              "viya/mv_createwebservice.sas" "" "" "" "")
    as (w' & Hrun & Htr & Hopen & _).
  - reflexivity.
  - reflexivity.
  - reflexivity.
  - reflexivity.
  - exists w'. split; [exact Hrun|]. split; [exact Hopen|exact Htr].
Defined.

(** [with open(path) as infile: for line in infile: out.write(f(line))]:
    one open, one close. *)
Lemma map_file_events (f : string → string) w o out c path txt :
  handles w !! o = Some (Handle out ModeW [] true) →
  o < next_handle w →
  files w !! out = Some c →
  files w !! path = Some txt →
  ∃ w', with_open path ModeR
          (λ infile, for_lines infile (λ _ line, write o (f line)) ()) w
        = (Ok (), w')
        ∧ trace w' = trace w ++ [EvOpen (next_handle w) path; EvClose (next_handle w)]
        ∧ next_handle w' = S (next_handle w).
Proof.
  intros Ho Hlt Hout Hpath. unfold with_open. erewrite open_r_run by done.
  unfold for_lines, bind, read_lines. simpl. rewrite lookup_insert_eq.
  unfold set_handle. simpl.
  erewrite write_fold_run; simpl; [|rewrite !lookup_insert_ne by lia; done|done].
  unfold close. simpl. rewrite lookup_insert_eq. simpl.
  eexists. split; [done|]. simpl. split; [by rewrite <- (assoc_L (++))|done].
Qed.

(** One turn of the Lua stage: two opens and one close. *)
Lemma embed_file_events w file txt :
  files w !! file = Some txt →
  file ≠ ml_path file →
  ∃ w', embed_file file w = (Ok (next_handle w), w')
        ∧ trace w' = trace w ++ [EvOpen (next_handle w) (ml_path file);
                                 EvOpen (S (next_handle w)) file;
                                 EvClose (S (next_handle w))]
        ∧ next_handle w' = S (S (next_handle w)).
Proof.
  intros Hfile Hne. unfold ml_path in *. unfold embed_file.
  fold (ml_name file).
  set (name := ml_name file) in *.
  set (out := "lua/" +:+ name +:+ ".sas") in *.
  set (n := next_handle w).
  erewrite bind_run by reflexivity.
  do 11 step_write.
  match goal with |- ∃ w', (_ ≫= _) ?W = _ ∧ _ => set (w1 := W) end.
  assert (Hc1 : is_Some (files w1 !! out)).
  { unfold w1. simpl. rewrite lookup_insert_eq. eauto. }
  assert (Hf1 : ∀ q, q ≠ out → files w1 !! q = files w !! q).
  { intros q Hq. unfold w1. simpl. by rewrite !lookup_insert_ne. }
  assert (Hh1 : handles w1 = <[n := Handle out ModeW [] true]> (handles w)) by done.
  assert (Hn1 : next_handle w1 = S n) by done.
  assert (Ht1 : trace w1 = trace w ++ [EvOpen n out]) by done.
  clearbody w1. destruct Hc1 as [c1 Hc1].
  destruct (map_file_run put_stmt w1 n out c1 file txt)
    as (w2 & Hrun & Hf2 & Hn2 & Hh2).
  { rewrite Hh1. apply lookup_insert_eq. }
  { lia. }
  { done. }
  { by rewrite Hf1. }
  destruct (map_file_events put_stmt w1 n out c1 file txt)
    as (w2' & Hrun' & Ht2 & Hn2').
  { rewrite Hh1. apply lookup_insert_eq. }
  { lia. }
  { done. }
  { by rewrite Hf1. }
  assert (w2' = w2) as -> by congruence.
  erewrite bind_run by apply Hrun.
  assert (Ho2 : handles w2 !! n = Some (Handle out ModeW [] true)).
  { rewrite Hh2 by lia. rewrite Hh1. apply lookup_insert_eq. }
  erewrite bind_run by (eapply write_run; [apply Ho2|rewrite Hf2; apply lookup_insert_eq]).
  do 2 (erewrite bind_run
          by (eapply write_run; simpl; [apply Ho2|apply lookup_insert_eq])).
  eexists. split; [done|]. simpl. rewrite Ht2, Hn2', Ht1, Hn1.
  split; [by rewrite <- (assoc_L (++))|done].
Qed.

Lemma ml_handle_0 n : ml_handle n 0 = n.
Proof. unfold ml_handle. lia. Qed.

Lemma ml_handle_S n i : ml_handle n (S i) = ml_handle (S (S n)) i.
Proof. unfold ml_handle. lia. Qed.

(** The macro file of each Lua file is opened. *)
Lemma lua_events_open n fl i f :
  fl !! i = Some f → EvOpen (ml_handle n i) (ml_path f) ∈ lua_events n fl.
Proof.
  revert n i. induction fl as [|g fl IH]; intros n [|i] Hi; try done.
  - simpl in Hi. injection Hi as ->. rewrite ml_handle_0. simpl. left.
  - simpl. rewrite ml_handle_S. do 3 right. by apply IH.
Qed.

(** What is closed inside the loop is a Lua file, never a macro file. *)
Lemma lua_events_close n fl h :
  EvClose h ∈ lua_events n fl → ∃ i, i < length fl ∧ h = S (ml_handle n i).
Proof.
  revert n. induction fl as [|g fl IH]; intros n Hin; simpl in Hin.
  - by apply elem_of_nil in Hin.
  - rewrite !elem_of_cons in Hin. destruct Hin as [Hin|[Hin|[Hin|Hin]]]; try done.
    + injection Hin as ->. exists 0. rewrite ml_handle_0. simpl. split; [lia|done].
    + apply IH in Hin as (i & Hi & ->). exists (S i). rewrite ml_handle_S.
      simpl. split; [lia|done].
Qed.

(** The loop of the Lua stage, with the opens and closes it makes. *)
Lemma lua_loop_events fl (fs : gmap string string) w ml0 :
  Forall (λ f, match_ext ".lua" f = true ∧ is_Some (fs !! f)) fl →
  (∀ f, match_ext ".lua" f = true → files w !! f = fs !! f) →
  ml_bound ml0 w →
  ∃ w' ml',
    foldM (λ _ file, h ← embed_file file; mret (Some h)) ml0 fl w = (Ok ml', w')
    ∧ trace w' = trace w ++ lua_events (next_handle w) fl
    ∧ ml_bound ml' w'
    ∧ (fl ≠ [] → ml' = Some (ml_handle (next_handle w) (length fl - 1))).
Proof.
  intros Hfl. revert w ml0. induction Hfl as [|f fl [Hlua [txt Htxt]] _ IH];
    intros w ml0 Hsame Hml0.
  - exists w, ml0. simpl. rewrite app_nil_r. repeat split; done.
  - destruct (embed_file_run w f txt) as (w1 & Hrun1 & Hf1 & Hn1 & Hh1 & Hs1).
    { by rewrite Hsame. }
    { by apply lua_file_not_macro. }
    destruct (embed_file_events w f txt) as (w1' & Hrun1' & Ht1 & Hnn1).
    { by rewrite Hsame. }
    { by apply lua_file_not_macro. }
    assert (w1' = w1) as -> by congruence.
    destruct (IH w1 (Some (next_handle w))) as (w2 & ml2 & Hrun2 & Ht2 & Hml2 & Hlast).
    { intros g Hg. rewrite Hf1, lookup_insert_ne; [by apply Hsame|].
      intros Heq. by apply (lua_file_not_ml_path g f Hg). }
    { done. }
    exists w2, ml2. rewrite foldM_cons. erewrite bind_run by apply Hrun1.
    change (@mret M _ _ (Some (next_handle w)) w1)
      with (Ok (Some (next_handle w)), w1).
    cbv beta iota. rewrite Hrun2. split; [done|]. split; [|split; [done|]].
    + rewrite Ht2, Ht1, Hnn1. simpl. by rewrite <- (assoc_L (++)).
    + intros _. destruct fl as [|g fl'].
      * simpl in Hrun2. unfold ret in Hrun2. injection Hrun2 as <- _.
        by rewrite ml_handle_0.
      * rewrite Hlast by done. rewrite Hnn1. f_equal. simpl length.
        unfold ml_handle. lia.
Qed.

(** X16. Run on k >= 1 Lua files, the Lua stage completes, and the
    calls it makes on file objects are these: for each Lua file, in the
    order of the loop, the macro file is opened, the Lua file is opened
    and, at the end of its [with] block, closed; after the loop, one
    [close] on the macro file opened last.  Every macro file is opened,
    and for none but the last does the script call [close]. *)
Theorem lua_stage_closes_last_macro_only
    (os : gmap string string → string → list string) (w : world) :
  valid_listing os →
  filter (λ f, match_ext ".lua" f = true) (os (files w) "lua") ≠ [] →
  ∃ w' evs,
    lua_stage os w = (Ok (), w')
    ∧ trace w' = trace w ++ evs
    ∧ evs = lua_events (next_handle w)
              (filter (λ f, match_ext ".lua" f = true) (os (files w) "lua"))
            ++ [EvClose (ml_handle (next_handle w)
                  (length (filter (λ f, match_ext ".lua" f = true)
                                  (os (files w) "lua")) - 1))]
    ∧ (∀ i f, filter (λ f, match_ext ".lua" f = true) (os (files w) "lua") !! i
              = Some f →
              EvOpen (ml_handle (next_handle w) i) (ml_path f) ∈ evs)
    ∧ (∀ i, i < length (filter (λ f, match_ext ".lua" f = true)
                               (os (files w) "lua")) - 1 →
            EvClose (ml_handle (next_handle w) i) ∉ evs).
Proof.
  intros Hos Hne. unfold lua_stage.
  erewrite bind_run by reflexivity.
  set (fl := filter _ _) in *.
  assert (Hfl : Forall (λ f, match_ext ".lua" f = true ∧ is_Some (files w !! f)) fl).
  { apply Forall_forall. intros f Hf. apply list_elem_of_filter in Hf as [Hm Hf].
    split; [done|]. by apply Hos in Hf as [Hs _]. }
  destruct (lua_loop_events fl (files w) w None Hfl)
    as (w1 & ml & Hrun & Ht & Hml & Hlast); [done..|].
  erewrite bind_run by apply Hrun.
  rewrite Hlast in * by done.
  destruct (close_run _ w1 Hml) as (w2 & Hclose & _ & Htr & _).
  exists w2. eexists. split; [done|].
  split; [by rewrite Htr, Ht, <- (assoc_L (++))|]. split; [done|].
  split.
  - intros i f Hi. apply elem_of_app. left. by apply lua_events_open.
  - intros i Hi Hin. apply elem_of_app in Hin as [Hin|Hin].
    + apply lua_events_close in Hin as (j & _ & Hj). unfold ml_handle in Hj. lia.
    + apply list_elem_of_singleton in Hin. injection Hin as Hin.
      unfold ml_handle in Hin. lia.
Qed.

Lemma lua_stage_closes_last_macro_only_witness :
  ∃ w', lua_stage plain_listing (initial library_fs) = (Ok (), w')
        ∧ trace w' = [ EvOpen 0 "lua/ml_a.sas"; EvOpen 1 "lua/a.lua"; EvClose 1;
                       EvOpen 2 "lua/ml_b.sas"; EvOpen 3 "lua/b.lua"; EvClose 3;
                       EvClose 2 ].
Proof.
  destruct (lua_stage_closes_last_macro_only plain_listing (initial library_fs))
    as (w' & evs & Hrun & Htr & Hevs & _).
  - apply plain_listing_valid.
  - vm_compute. discriminate.
  - exists w'. split; [exact Hrun|]. rewrite Htr, Hevs. reflexivity.
Defined.

(** ** The three stages in a row *)

Lemma lua_stage_run os w :
  valid_listing os →
  filter (λ f, match_ext ".lua" f = true) (os (files w) "lua") ≠ [] →
  ∃ w', lua_stage os w = (Ok (), w')
        ∧ files w'
          = lua_files_after (files w)
              (filter (λ f, match_ext ".lua" f = true) (os (files w) "lua")).
Proof.
  intros Hos Hne. unfold lua_stage.
  erewrite bind_run by reflexivity.
  set (fl := filter _ _) in *.
  assert (Hfl : Forall (λ f, match_ext ".lua" f = true ∧ is_Some (files w !! f)) fl).
  { apply Forall_forall. intros f Hf. apply list_elem_of_filter in Hf as [Hm Hf].
    split; [done|]. by apply Hos in Hf as [Hs _]. }
  destruct (lua_loop_run fl (files w) w None Hfl) as (w1 & ml & Hrun & Hml & Hsome & _ & Hf);
    [done..|].
  erewrite bind_run by apply Hrun.
  destruct ml as [h|]; [|by destruct (Hsome Hne)].
  destruct (close_run h w1 Hml) as (w2 & Hclose & Hf2 & _).
  exists w2. split; [done|]. by rewrite Hf2, Hf.
Qed.

Lemma web_stage_run w tv tm s0 sv sm s2 :
  files w !! "viya/mv_createwebservice.sas" = Some tv →
  files w !! "meta/mm_createwebservice.sas" = Some tm →
  files w !! "base/mp_jsonout.sas" = Some s0 →
  files w !! "viya/mv_webout.sas" = Some sv →
  files w !! "meta/mm_webout.sas" = Some sm →
  files w !! "base/mf_getuser.sas" = Some s2 →
  ∃ w', web_stage w = (Ok (), w')
        ∧ files w' = web_files_after (files w) tv tm s0 sv sm s2.
Proof.
  intros Htv Htm H0 Hsv Hsm H2.
  destruct (splice_file_run w "viya/mv_createwebservice.sas" tv s0 sv s2)
    as (w1 & Hrun1 & Hf1 & _); [done..|].
  destruct (splice_file_run w1 "meta/mm_createwebservice.sas" tm s0 sm s2)
    as (w2 & Hrun2 & Hf2 & _);
    [rewrite Hf1; by rewrite lookup_insert_ne, lookup_delete_ne by done..|].
  exists w2. unfold web_stage, for_each, web_targets.
  rewrite foldM_cons, Hrun1, foldM_cons, Hrun2. split; [done|].
  by rewrite Hf2, Hf1.
Qed.

(** X17. The whole run: with a valid listing, at least one [*.lua] file,
    no two Lua files sharing a macro file,
    and the two web targets and their four sources in place, the three
    stages complete in a row, and [all.sas] is the library text of the
    tree as the first two stages left it, that is with the macro files of
    the Lua stage and the spliced targets of the web stage in it; apart
    from the six aggregate files the final tree is that tree. *)
Theorem build_completes
    (os : gmap string string → string → list string) (w : world)
    (tv tm s0 sv sm s2 : string) :
  valid_listing os →
  filter (λ f, match_ext ".lua" f = true) (os (files w) "lua") ≠ [] →
  distinct_macros (filter (λ f, match_ext ".lua" f = true) (os (files w) "lua")) →
  files w !! "viya/mv_createwebservice.sas" = Some tv →
  files w !! "meta/mm_createwebservice.sas" = Some tm →
  files w !! "base/mp_jsonout.sas" = Some s0 →
  files w !! "viya/mv_webout.sas" = Some sv →
  files w !! "meta/mm_webout.sas" = Some sm →
  files w !! "base/mf_getuser.sas" = Some s2 →
  ∃ w', build os w = (Ok (), w')
        ∧ files w' !! "all.sas"
          = Some (library_text
                    (web_files_after
                       (lua_files_after (files w)
                          (filter (λ f, match_ext ".lua" f = true)
                                  (os (files w) "lua")))
                       tv tm s0 sv sm s2))
        ∧ ∀ p, p ≠ "all.sas" →
               (∀ d, d ∈ folders → p ≠ "mc_" +:+ d +:+ ".sas") →
               files w' !! p
               = web_files_after
                   (lua_files_after (files w)
                      (filter (λ f, match_ext ".lua" f = true)
                              (os (files w) "lua")))
                   tv tm s0 sv sm s2 !! p.
Proof.
  intros Hos Hne _ Htv Htm H0 Hsv Hsm H2.
  destruct (lua_stage_run os w Hos Hne) as (w1 & Hrun1 & Hf1).
  assert (Hkeep : ∀ p txt, files w !! p = Some txt →
                    (∀ f, p ≠ ml_path f) → files w1 !! p = Some txt).
  { intros p txt Hp Hnot. rewrite Hf1. unfold lua_files_after.
    rewrite lua_files_from_frame; [done|]. intros f _. apply Hnot. }
  destruct (web_stage_run w1 tv tm s0 sv sm s2) as (w2 & Hrun2 & Hf2);
    [apply Hkeep; [done|intros f Heq; discriminate Heq]..|].
  destruct (concat_stage_run os Hos w2) as (w3 & Hrun3 & Hall & _).
  destruct (concat_stage_frame os w2 Hos) as (w3' & Hrun3' & Hframe).
  assert (w3' = w3) as -> by congruence.
  exists w3. unfold build.
  erewrite bind_run by apply Hrun1. erewrite bind_run by apply Hrun2.
  split; [done|]. rewrite <- Hf1, <- Hf2. split; [done|]. apply Hframe.
Qed.

Lemma build_completes_witness :
  ∃ w', build plain_listing (initial library_fs) = (Ok (), w')
        ∧ files w' !! "viya/mv_createwebservice.sas"
          = Some (webout_begin +:+ "  put '%macro mp_jsonout; ';" +:+ nl
                  +:+ "  put '%macro mv_webout; ';" +:+ nl
                  +:+ "  put '%macro mf_getuser; ';" +:+ nl +:+ webout_end)
        ∧ files w' !! "lua/ml_a.sas" = Some (ml_text "lua/a.lua" ("return 1" +:+ nl)).
Proof.
  destruct (build_completes plain_listing (initial library_fs)
              (webout_begin +:+ webout_end) (webout_begin +:+ webout_end)
              (comment_close +:+ "%macro mp_jsonout;" +:+ nl)
              (comment_close +:+ "%macro mv_webout;" +:+ nl)
              (comment_close +:+ "%macro mm_webout;" +:+ nl)
              (comment_close +:+ "%macro mf_getuser;" +:+ nl))
    as (w' & Hrun & _ & Hframe).
  - apply plain_listing_valid.
  - vm_compute. discriminate.
  - apply (bool_decide_unpack _). vm_compute. exact I.
  - reflexivity.
  - reflexivity.
  - reflexivity.
  - reflexivity.
  - reflexivity.
  - reflexivity.
  - exists w'. split; [exact Hrun|]. split.
    + rewrite Hframe; [reflexivity|discriminate|intros d _; discriminate].
    + rewrite Hframe; [reflexivity|discriminate|intros d _; discriminate].
Defined.

(** X18. No stage makes up for a failure of an earlier one: when
    [base/mp_jsonout.sas] is missing (and there are Lua files, no two of
    them sharing a macro file), the run ends in the web stage with the
    error for that file; the macro files of the Lua stage are already
    written, no target is touched, and [all.sas] is as it was before the
    run. *)
Theorem build_stops_in_web_stage
    (os : gmap string string → string → list string) (w : world) :
  valid_listing os →
  filter (λ f, match_ext ".lua" f = true) (os (files w) "lua") ≠ [] →
  distinct_macros (filter (λ f, match_ext ".lua" f = true) (os (files w) "lua")) →
  files w !! "base/mp_jsonout.sas" = None →
  ∃ w', build os w = (Raise (FileNotFoundError "base/mp_jsonout.sas"), w')
        ∧ files w'
          = lua_files_after (files w)
              (filter (λ f, match_ext ".lua" f = true) (os (files w) "lua"))
        ∧ files w' !! "all.sas" = files w !! "all.sas"
        ∧ files w' !! "viya/mv_createwebservice.sas"
          = files w !! "viya/mv_createwebservice.sas"
        ∧ files w' !! "meta/mm_createwebservice.sas"
          = files w !! "meta/mm_createwebservice.sas".
Proof.
  intros Hos Hne _ Hmiss.
  destruct (lua_stage_run os w Hos Hne) as (w1 & Hrun1 & Hf1).
  assert (Hkeep : ∀ p, (∀ f, p ≠ ml_path f) → files w1 !! p = files w !! p).
  { intros p Hnot. rewrite Hf1. unfold lua_files_after.
    rewrite lua_files_from_frame; [done|]. intros f _. apply Hnot. }
  exists w1. unfold build.
  erewrite bind_run by apply Hrun1.
  erewrite bind_raise; cycle 1.
  { unfold web_stage, for_each, web_targets. rewrite foldM_cons.
    rewrite splice_missing_source_run; [done|].
    rewrite Hkeep; [done|]. intros f Heq. discriminate Heq. }
  split; [done|]. split; [done|].
  repeat split; apply Hkeep; intros f Heq; discriminate Heq.
Qed.

Lemma build_stops_in_web_stage_witness :
  ∃ w', build plain_listing (initial {[ "lua/a.lua" := "return 1" ]})
        = (Raise (FileNotFoundError "base/mp_jsonout.sas"), w')
        ∧ files w' !! "all.sas" = None
        ∧ is_Some (files w' !! "lua/ml_a.sas").
Proof.
  destruct (build_stops_in_web_stage plain_listing
              (initial {[ "lua/a.lua" := "return 1" ]}))
    as (w' & Hrun & Hf & Hall & _).
  - apply plain_listing_valid.
  - vm_compute. discriminate.
  - apply (bool_decide_unpack _). vm_compute. exact I.
  - reflexivity.
  - exists w'. split; [exact Hrun|]. split; [exact Hall|].
    rewrite Hf. eexists. reflexivity.
Defined.
